(** * fslite.fs.multivariate: multivariate feature selection

    A shallow embedding of [src/fslite/fs/multivariate.py]: the
    correlation-based selector [multivariate_correlation_selector] and the
    variance-based selector [multivariate_variance_selector].

    Modelling conventions.
    - A float that is a number is the rational it denotes ([Q]); [>] on
      such floats is [Qgtb].  A float that may be NaN is a [float64];
      [>] on these is [float_gtb], false on NaN.  Infinities are outside
      the model.
    - The rounding arithmetic of numpy is not modelled: [np.mean] and
      [np.var] are parameters of the development, like the correlation
      routines, and every result holds for whatever floats they return.
      The variances may be NaN; the entries of a correlation matrix and
      their row means are numbers.  The exact mean and variance
      ([exact_mean_axis1], [exact_var_axis0]) are the instances of
      these parameters used in the examples.
    - A 2-D numpy array is an [ndarray2]: its shape and a total function
      from (row, column) to the entry.  The outcome of a correlation
      routine is a [corr_result]: a 2-D array, a 0-d array, or an
      exception raised by the routine.
    - The Python set [index_to_remove] is a [gset nat]; Python lists of
      indices are [list nat].
    - The statistics computed by numpy/scipy ([np.corrcoef], [spearmanr])
      are parameters of the development: every result holds for whatever
      entries they return.  What the selector does with their result, the
      array's shape and a raised exception included, is modelled.
    - The selector runs in a small monad that logs each numeric library
      call in the order the code makes it and may raise an exception.
    - The data container [FSDataFrame] and its two methods are parameters
      of the dispatcher [multivariate_filter]; its keyword arguments are
      a record of optional values. *)

From Stdlib Require Import QArith Qabs String List Arith Lia Sorted.
From stdpp Require Import base list gmap sets.
Import ListNotations.

Local Open Scope nat_scope.

(** * Part I: the program *)

(** ** Floats *)

(** [x > y] on floats that are numbers. *)
Definition Qgtb (x y : Q) : bool := negb (Qle_bool x y).

(** A float that may be NaN. *)
Inductive float64 : Type :=
| NaN
| Num (q : Q).

(** [x > y] for a float [x] that may be NaN: every comparison with NaN
    is false. *)
Definition float_gtb (x : float64) (y : Q) : bool :=
  match x with
  | NaN => false
  | Num q => Qgtb q y
  end.

(** The absolute value of a float that may be NaN. *)
Definition float_abs (x : float64) : float64 :=
  match x with
  | NaN => NaN
  | Num q => Num (Qabs q)
  end.

(** ** Arrays *)

(** A 2-D array: [shape0] rows, [shape1] columns. *)
Record ndarray2 (A : Type) : Type := mk_ndarray2 {
  shape0 : nat;
  shape1 : nat;
  item : nat -> nat -> A
}.
Arguments mk_ndarray2 {A} _ _ _.
Arguments shape0 {A} _.
Arguments shape1 {A} _.
Arguments item {A} _ _ _.

(** The [n] by [n] array with entries [f]. *)
Definition square {A : Type} (n : nat) (f : nat -> nat -> A) : ndarray2 A :=
  mk_ndarray2 n n f.

(** The array whose rows are the given lists (missing entries read 0). *)
Definition of_rows (rows : list (list Q)) : ndarray2 Q :=
  mk_ndarray2 (length rows) (length (hd [] rows))
    (fun i j => nth j (nth i rows []) 0%Q).

(** ** Exceptions *)

Inductive exn : Type :=
| ValueError (msg : string)
| TypeError (msg : string)
| IndexError (msg : string).

(** The outcome of [np.corrcoef] and of [spearmanr]: a 2-D array, a 0-d
    array (a bare float, possibly NaN) when the library squeezes its
    result, or an exception raised inside the routine. *)
Inductive corr_result : Type :=
| Corr0d (x : float64)
| Corr2d (m : ndarray2 Q)
| CorrRaised (e : exn).

(** ** numpy primitives used by the selectors *)

(** [np.abs(a)], elementwise. *)
Definition np_abs (a : ndarray2 Q) : ndarray2 Q :=
  mk_ndarray2 (shape0 a) (shape1 a) (fun i j => Qabs (item a i j)).

(** [np.triu(a, k)]: entries below the [k]-th diagonal are replaced by 0. *)
Definition np_triu (a : ndarray2 Q) (k : nat) : ndarray2 Q :=
  mk_ndarray2 (shape0 a) (shape1 a)
    (fun i j => if j <? i + k then 0%Q else item a i j).

(** [a > x], elementwise comparison with a scalar. *)
Definition np_greater (a : ndarray2 Q) (x : Q) : ndarray2 bool :=
  mk_ndarray2 (shape0 a) (shape1 a) (fun i j => Qgtb (item a i j) x).

(** The positions of the true entries, in row-major order. *)
Definition true_positions (b : ndarray2 bool) : list (nat * nat) :=
  flat_map (fun i => map (pair i) (List.filter (item b i) (seq 0 (shape1 b))))
           (seq 0 (shape0 b)).

(** [np.where(b)]: the row indices and the column indices of the true
    entries, as two arrays. *)
Definition np_where (b : ndarray2 bool) : list nat * list nat :=
  (map fst (true_positions b), map snd (true_positions b)).

(** [np.column_stack((rows, cols))]: one row [i, j] per position. *)
Definition np_column_stack (rc : list nat * list nat) : list (nat * nat) :=
  combine (fst rc) (snd rc).

(** Sum of the floats of a list. *)
Definition Qsum (l : list Q) : Q := fold_right Qplus 0%Q l.

(** The mean of row [i] in exact arithmetic: [np.mean(a, axis=1)[i]]
    when no intermediate result is rounded. *)
Definition exact_mean_axis1 (a : ndarray2 Q) (i : nat) : Q :=
  (Qsum (map (item a i) (seq 0 (shape1 a))) / inject_Z (Z.of_nat (shape1 a)))%Q.

(** The population variance of column [j] in exact arithmetic:
    [np.var(a, axis=0)[j]] when no intermediate result is rounded; NaN
    for an array without rows. *)
Definition exact_var_axis0 (a : ndarray2 Q) (j : nat) : float64 :=
  let rows := seq 0 (shape0 a) in
  let m := inject_Z (Z.of_nat (shape0 a)) in
  let mu := (Qsum (map (fun i => item a i j) rows) / m)%Q in
  match shape0 a with
  | O => NaN
  | S _ => Num (Qsum (map (fun i => (item a i j - mu) * (item a i j - mu)) rows) / m)%Q
  end.

(** [np.where(v > x)[0]] for a 1-D array [v] of length [n]. *)
Definition np_where_greater1 (n : nat) (v : nat -> float64) (x : Q) : list nat :=
  List.filter (fun j => float_gtb (v j) x) (seq 0 n).

(** ** The log of library calls *)

(** The numeric library routines the selector calls. *)
Inductive call : Type :=
| NpCorrcoef | Spearmanr | NpAbs | NpTriu | NpGreater | NpWhere
| NpColumnStack | NpMean | FindMIS | NpVar | PercentileRank.

(** A run: the library calls made so far, in order, and either the
    exception raised or the value computed. *)
Definition Run (A : Type) : Type := (list call * (exn + A))%type.

Definition calls {A : Type} (r : Run A) : list call := fst r.
Definition outcome {A : Type} (r : Run A) : exn + A := snd r.

#[global] Instance run_ret : MRet Run := fun A x => ([], inr x).

#[global] Instance run_bind : MBind Run := fun A B f m =>
  match snd m with
  | inl e => (fst m, inl e)
  | inr a => (fst m ++ fst (f a), snd (f a))
  end.

(** [raise e]: stop with exception [e]. *)
Definition raise {A : Type} (e : exn) : Run A := ([], inl e).

(** [lib c v]: the library call [c] is made and returns [v]. *)
Definition lib {A : Type} (c : call) (v : A) : Run A := ([c], inr v).

(** [lib_raise c e]: the library call [c] is made and raises [e]. *)
Definition lib_raise {A : Type} (c : call) (e : exn) : Run A := ([c], inl e).

(** ** The maximal-independent-set finder *)

(** Modelled from the spec: [find_maximal_independent_set] is defined in
    [fslite/fs/utils.py], whose code is not available here.  The spec
    (4.2a) describes it: the node universe is the set of indices appearing in at
    least one pair; repeatedly pick a node of minimum remaining degree
    (lowest index wins ties), add it to the independent set, remove it and
    all its neighbours from further consideration, until no nodes remain;
    return the independent set ([keep = true]) or its complement within
    the node universe ([keep = false]). *)
Definition adjacent (edges : list (nat * nat)) (u v : nat) : bool :=
  existsb (fun e => ((fst e =? u) && (snd e =? v)) || ((fst e =? v) && (snd e =? u)))
          edges.

(** Modelled from the spec: the node universe, without repetition. *)
Definition node_universe (edges : list (nat * nat)) : list nat :=
  nodup Nat.eq_dec (flat_map (fun e => [fst e; snd e]) edges).

(** Modelled from the spec: the remaining degree of [v] among [remaining]. *)
Definition degree (edges : list (nat * nat)) (remaining : list nat) (v : nat) : nat :=
  length (List.filter (adjacent edges v) remaining).

(** Modelled from the spec: [u] is preferred to [v]: smaller remaining
    degree, and on equal degree the lower index. *)
Definition preferred (edges : list (nat * nat)) (remaining : list nat) (u v : nat) : bool :=
  (degree edges remaining u <? degree edges remaining v)
  || ((degree edges remaining u =? degree edges remaining v) && (u <? v)).

(** Modelled from the spec: the preferred node among [best :: cands]. *)
Fixpoint pick_min (edges : list (nat * nat)) (remaining cands : list nat) (best : nat) : nat :=
  match cands with
  | [] => best
  | c :: cs =>
      pick_min edges remaining cs
        (if preferred edges remaining c best then c else best)
  end.

(** Modelled from the spec: the nodes left after [v] and its neighbours
    are removed. *)
Definition remove_closed (edges : list (nat * nat)) (v : nat) (remaining : list nat) : list nat :=
  List.filter (fun u => negb (u =? v) && negb (adjacent edges v u)) remaining.

(** Modelled from the spec: the greedy loop; [fuel] bounds the number of
    rounds, and [length remaining] rounds always suffice
    ([greedy_mis_fuel] below). *)
Fixpoint greedy_mis (fuel : nat) (edges : list (nat * nat)) (remaining acc : list nat) : list nat :=
  match fuel with
  | O => acc
  | S fuel' =>
      match remaining with
      | [] => acc
      | v0 :: rest =>
          let v := pick_min edges remaining rest v0 in
          greedy_mis fuel' edges (remove_closed edges v remaining) (v :: acc)
      end
  end.

(** Modelled from the spec: the independent set found in the graph of
    [pairs]. *)
Definition maximal_independent_set (pairs : list (nat * nat)) : list nat :=
  greedy_mis (length (node_universe pairs)) pairs (node_universe pairs) [].

(** Modelled from the spec: the finder's result as a set. *)
Definition find_maximal_independent_set (pairs : list (nat * nat)) (keep : bool) : gset nat :=
  let mis := maximal_independent_set pairs in
  if keep then list_to_set mis
  else list_to_set (List.filter (fun v => negb (existsb (Nat.eqb v) mis))
                                (node_universe pairs)).

(** ** The correlation-based selector, piece by piece *)

(** Lines 147-148: the pairs above the cutoff, from the absolute
    correlation matrix. *)
Definition correlated_pairs (corr_matrix : ndarray2 Q) (selection_threshold : Q) : list (nat * nat) :=
  np_column_stack (np_where (np_greater (np_triu corr_matrix 1) selection_threshold)).

(** Lines 156-159: the body of the strict loop for one pair. *)
Definition strict_step (col_means : nat -> Q) (index_to_remove : gset nat) (p : nat * nat) : gset nat :=
  if Qgtb (col_means (fst p)) (col_means (snd p))
  then {[ fst p ]} ∪ index_to_remove
  else {[ snd p ]} ∪ index_to_remove.

(** Lines 151-159: the strict loop over the pairs, from the empty set. *)
Definition strict_loop (col_means : nat -> Q) (pairs : list (nat * nat)) : gset nat :=
  fold_left (strict_step col_means) pairs ∅.

(** Line 169: the indices that are not marked for removal. *)
Definition selected_features (features_indexes : list nat) (index_to_remove : gset nat) : list nat :=
  List.filter (fun i => bool_decide (i ∉ index_to_remove)) features_indexes.

Definition unsupported_method (corr_method : string) : string :=
  String.append "Unsupported correlation method '"
    (String.append corr_method "'. Use 'pearson' or 'spearman'.").

Definition unsupported_mode (selection_mode : string) : string :=
  String.append "Unsupported selection mode '"
    (String.append selection_mode "'. Use 'strict' or 'approximate'.").

(** An array of any dimension: what the name [corr_matrix] is bound
    to once the correlation routine has returned. *)
Inductive ndarray : Type :=
| Array0d (x : float64)
| Array2d (m : ndarray2 Q).

(** The correlation call [c] with its outcome: the array it returns, or
    the exception it raises. *)
Definition lib_corr (c : call) (r : corr_result) : Run ndarray :=
  match r with
  | Corr0d x => lib c (Array0d x)
  | Corr2d m => lib c (Array2d m)
  | CorrRaised e => lib_raise c e
  end.

(** [np.abs] accepts a 0-d array as well. *)
Definition np_abs_any (c : ndarray) : ndarray :=
  match c with
  | Array0d x => Array0d (float_abs x)
  | Array2d m => Array2d (np_abs m)
  end.

(** [np.triu(c, k)]: numpy builds the mask from the last two dimensions of
    its argument and raises [TypeError] when there are none. *)
Definition np_triu_any (c : ndarray) (k : nat) : Run (ndarray2 Q) :=
  match c with
  | Array0d _ => lib_raise NpTriu (TypeError "tri() missing 1 required positional argument: 'N'")
  | Array2d m => lib NpTriu (np_triu m k)
  end.

(** [np.mean(c, axis=1)], given the means [np_mean_axis1] numpy computes
    for a 2-D array: a 0-d array has no axis 1. *)
Definition np_mean_axis1_any (np_mean_axis1 : ndarray2 Q -> nat -> Q)
    (c : ndarray) : Run (nat -> Q) :=
  match c with
  | Array0d _ => lib_raise NpMean (ValueError "axis 1 is out of bounds for array of dimension 0")
  | Array2d m => lib NpMean (np_mean_axis1 m)
  end.

(** The endpoint the strict loop marks for a pair: the first one when its
    mean is strictly the larger, the second one otherwise. *)
Definition strict_pick (col_means : nat -> Q) (p : nat * nat) : nat :=
  if Qgtb (col_means (fst p)) (col_means (snd p)) then fst p else snd p.

Section Selector.

(** [np.corrcoef(f_matrix, rowvar=False)] and the statistic of
    [spearmanr(f_matrix)]. *)
Variable np_corrcoef : ndarray2 Q -> corr_result.
Variable spearmanr : ndarray2 Q -> corr_result.

(** [np.mean(a, axis=1)[i]]: the float numpy computes as the mean of row
    [i] of a 2-D array of numbers. *)
Variable np_mean_axis1 : ndarray2 Q -> nat -> Q.

(** [multivariate_correlation_selector(fsdf, selection_mode,
    selection_threshold, corr_method)]; [fsdf] is represented by its
    feature matrix. *)
Definition multivariate_correlation_selector
    (fsdf : ndarray2 Q) (selection_mode : string)
    (selection_threshold : Q) (corr_method : string) : Run (list nat) :=
  let f_matrix := fsdf in
  let features_indexes := seq 0 (shape1 f_matrix) in
  corr_matrix ←
    (if String.eqb corr_method "pearson" then lib_corr NpCorrcoef (np_corrcoef f_matrix)
     else if String.eqb corr_method "spearman" then lib_corr Spearmanr (spearmanr f_matrix)
     else raise (ValueError (unsupported_method corr_method)));
  corr_matrix ← lib NpAbs (np_abs_any corr_matrix);
  upper ← np_triu_any corr_matrix 1;
  combs_above_cutoff ← lib NpGreater (np_greater upper selection_threshold);
  rows_cols ← lib NpWhere (np_where combs_above_cutoff);
  correlated_pairs ← lib NpColumnStack (np_column_stack rows_cols);
  index_to_remove ←
    (if String.eqb selection_mode "strict" then
       col_means ← np_mean_axis1_any np_mean_axis1 corr_matrix;
       mret (strict_loop col_means correlated_pairs)
     else if String.eqb selection_mode "approximate" then
       lib FindMIS (find_maximal_independent_set correlated_pairs false)
     else raise (ValueError (unsupported_mode selection_mode)));
  mret (selected_features features_indexes index_to_remove).

(** The outcome of the correlation routine on [fsdf], when the method
    is supported. *)
Definition correlation_of (corr_method : string) (fsdf : ndarray2 Q) : option corr_result :=
  if String.eqb corr_method "pearson" then Some (np_corrcoef fsdf)
  else if String.eqb corr_method "spearman" then Some (spearmanr fsdf)
  else None.

End Selector.

(** ** The sets marked for removal, and the supported options *)

(** The set [index_to_remove] of strict mode, from the absolute
    correlation matrix and the means numpy computes. *)
Definition strict_index_to_remove (np_mean_axis1 : ndarray2 Q -> nat -> Q)
    (corr_matrix : ndarray2 Q) (selection_threshold : Q) : gset nat :=
  strict_loop (np_mean_axis1 corr_matrix) (correlated_pairs corr_matrix selection_threshold).

(** The set [index_to_remove] of approximate mode. *)
Definition approximate_index_to_remove (corr_matrix : ndarray2 Q) (selection_threshold : Q) : gset nat :=
  find_maximal_independent_set (correlated_pairs corr_matrix selection_threshold) false.

(** The library call that computes the correlation for a supported
    method. *)
Definition correlation_call (corr_method : string) : call :=
  if String.eqb corr_method "pearson" then NpCorrcoef else Spearmanr.

Definition supported_method (corr_method : string) : Prop :=
  corr_method = "pearson"%string \/ corr_method = "spearman"%string.

Definition supported_mode (selection_mode : string) : Prop :=
  selection_mode = "strict"%string \/ selection_mode = "approximate"%string.

(** ** The variance-based selector *)

Definition unsupported_variance_mode (selection_mode : string) : string :=
  String.append "Unsupported selection mode '"
    (String.append selection_mode "'. Use 'percentile' or 'k_best'.").

Section Variance.

(** [np.var(a, axis=0)[j]]: the float numpy computes as the variance of
    column [j]. *)
Variable np_var_axis0 : ndarray2 Q -> nat -> float64.

(** [percentile_rank] of [fslite/fs/utils.py], whose code is not
    available here: applied to a 1-D array given by its length and
    entries. *)
Variable percentile_rank : nat -> (nat -> float64) -> nat -> float64.

(** [multivariate_variance_selector(fsdf, selection_mode,
    selection_threshold)].  The two [np.mean] calls are those of the log
    message and of [print]; the text they write is not modelled. *)
Definition multivariate_variance_selector
    (fsdf : ndarray2 Q) (selection_mode : string) (selection_threshold : Q)
    : Run (list nat) :=
  let f_matrix := fsdf in
  features_variances ← lib NpVar (np_var_axis0 f_matrix);
  _ ← lib NpMean tt;
  _ ← lib NpMean tt;
  if String.eqb selection_mode "k_best" then
    lib NpWhere
      (np_where_greater1 (shape1 f_matrix) features_variances selection_threshold)
  else if String.eqb selection_mode "percentile" then
    variances_pct_rank ←
      lib PercentileRank (percentile_rank (shape1 f_matrix) features_variances);
    lib NpWhere
      (np_where_greater1 (shape1 f_matrix) variances_pct_rank selection_threshold)
  else raise (ValueError (unsupported_variance_mode selection_mode)).

End Variance.

(** ** The dispatcher *)

(** The keyword arguments [**kwargs] that [multivariate_filter] forwards
    to the selector it picks: each of the three option names may be
    given or left out. *)
Record kwargs : Type := mk_kwargs {
  kw_selection_mode : option string;
  kw_selection_threshold : option Q;
  kw_corr_method : option string
}.

(** No keyword argument. *)
Definition no_kwargs : kwargs := mk_kwargs None None None.

(** The value of a parameter: the keyword argument when it is given, the
    default of the signature otherwise. *)
Definition or_default {A : Type} (given : option A) (default : A) : A :=
  match given with
  | Some v => v
  | None => default
  end.

Definition invalid_method (multivariate_method methods_text : string) : string :=
  String.append "Invalid multivariate method: "
    (String.append multivariate_method
       (String.append ". Choose one of " (String.append methods_text "."))).

Section Dispatcher.

(** The data container [FSDataFrame] of [fslite/fs/fdataframe.py] and its
    two methods used here. *)
Variable FSDataFrame : Type.
Variable get_feature_matrix : FSDataFrame -> ndarray2 Q.
Variable select_features_by_index : FSDataFrame -> list nat -> FSDataFrame.

Variable np_corrcoef : ndarray2 Q -> corr_result.
Variable spearmanr : ndarray2 Q -> corr_result.
Variable np_mean_axis1 : ndarray2 Q -> nat -> Q.
Variable np_var_axis0 : ndarray2 Q -> nat -> float64.
Variable percentile_rank : nat -> (nat -> float64) -> nat -> float64.

(** The text of [get_fs_multivariate_methods()] in the error message. *)
Variable methods_text : string.

(** [multivariate_correlation_selector(fsdf, **kwargs)]: the signature
    has all three option names, with defaults ['strict'], [0.75] and
    ['pearson']. *)
Definition call_correlation_selector (fsdf : FSDataFrame) (kw : kwargs) : Run (list nat) :=
  multivariate_correlation_selector np_corrcoef spearmanr np_mean_axis1
    (get_feature_matrix fsdf)
    (or_default (kw_selection_mode kw) "strict"%string)
    (or_default (kw_selection_threshold kw) (3 # 4)%Q)
    (or_default (kw_corr_method kw) "pearson"%string).

(** [multivariate_variance_selector(fsdf, **kwargs)]: the signature has
    no [corr_method]; Python raises [TypeError] for a keyword argument
    the function does not have, before its body runs.  The defaults are
    ['k_best'] and [0.0]. *)
Definition call_variance_selector (fsdf : FSDataFrame) (kw : kwargs) : Run (list nat) :=
  match kw_corr_method kw with
  | Some _ =>
      raise (TypeError
        "multivariate_variance_selector() got an unexpected keyword argument 'corr_method'")
  | None =>
      multivariate_variance_selector np_var_axis0 percentile_rank
        (get_feature_matrix fsdf)
        (or_default (kw_selection_mode kw) "k_best"%string)
        (or_default (kw_selection_threshold kw) 0%Q)
  end.

(** [FSMultivariate.multivariate_filter(fsdf, multivariate_method,
    **kwargs)]; the method does not read [self], and the log messages
    are not modelled. *)
Definition multivariate_filter
    (fsdf : FSDataFrame) (multivariate_method : string) (kw : kwargs)
    : Run FSDataFrame :=
  selected_features ←
    (if String.eqb multivariate_method "m_corr" then
       call_correlation_selector fsdf kw
     else if String.eqb multivariate_method "variance" then
       call_variance_selector fsdf kw
     else raise (ValueError (invalid_method multivariate_method methods_text)));
  mret (select_features_by_index fsdf selected_features).

End Dispatcher.

(** The modes the variance-based selector supports. *)
Definition supported_variance_mode (selection_mode : string) : Prop :=
  selection_mode = "k_best"%string \/ selection_mode = "percentile"%string.

(** The means are computed from the numbers an array holds.  A number
    has several representations as a fraction; two arrays of the same
    shape whose entries denote the same numbers have the same row
    means. *)
Definition mean_of_values (np_mean_axis1 : ndarray2 Q -> nat -> Q) : Prop :=
  forall a b : ndarray2 Q,
    shape0 a = shape0 b -> shape1 a = shape1 b ->
    (forall i j, (item a i j == item b i j)%Q) ->
    forall i, (np_mean_axis1 a i == np_mean_axis1 b i)%Q.

(** The sub-matrix of [f] on the rows and columns listed in [sel]. *)
Definition sub_matrix (f : nat -> nat -> Q) (sel : list nat) : nat -> nat -> Q :=
  fun a b => f (nth a sel 0) (nth b sel 0).

(** ** Example data *)

(** The entries of a matrix written as a list of rows. *)
Definition table (rows : list (list Q)) : nat -> nat -> Q :=
  fun i j => nth j (nth i rows []) 0%Q.

(** A library run that returns [c] on the data at hand. *)
Definition library_returning (c : corr_result) : ndarray2 Q -> corr_result :=
  fun _ => c.

(** Three samples of three features: the second is twice the first, the
    third is uncorrelated with both. *)
Definition features3 : ndarray2 Q :=
  of_rows [[1; 2; 0]; [2; 4; 1]; [3; 6; 0]]%Q.

(** The Pearson correlation matrix of [features3]. *)
Definition corr3 : ndarray2 Q :=
  square 3 (table [[1; 1; 0]; [1; 1; 0]; [0; 0; 1]]%Q).

(** The matrix [corr3] with the sign of the correlation between the
    first two features flipped. *)
Definition corr3_flipped : ndarray2 Q :=
  square 3 (table [[1; -1; 0]; [-1; 1; 0]; [0; 0; 1]]%Q).

(** Three samples of two features with correlation 1/2. *)
Definition features2 : ndarray2 Q :=
  of_rows [[1; 1]; [2; 3]; [3; 2]]%Q.

(** The Pearson correlation matrix of [features2]. *)
Definition corr2 : ndarray2 Q :=
  square 2 (table [[1; 1 # 2]; [1 # 2; 1]]%Q).

(** Three samples of a single feature. *)
Definition features1 : ndarray2 Q :=
  of_rows [[1]; [2]; [3]]%Q.

(** The outcome of [spearmanr] on a single column: it raises when it
    reads the second one. *)
Definition spearmanr_single_column : corr_result :=
  CorrRaised (IndexError "index 1 is out of bounds for axis 1 with size 1").

(** Three samples of the three features [1,1,1], [1,2,3] and [5,5,5]. *)
Definition features_variance_example : ndarray2 Q :=
  of_rows [[1; 1; 5]; [1; 2; 5]; [1; 3; 5]]%Q.

(** A [percentile_rank] that hands its argument back; it stands for the
    helper in examples that do not call it. *)
Definition percentile_rank_unused : nat -> (nat -> float64) -> nat -> float64 :=
  fun _ v => v.

(** Eight features.  Features 0-3 are each weakly tied to one of 4, 5 and
    to both of 6, 7.  The matrix is symmetric with unit diagonal and
    strictly diagonally dominant, hence a correlation matrix. *)
Definition corr8 : ndarray2 Q :=
  square 8 (table
    [[1; 1 # 10; 1 # 10; 1 # 10; 7 # 50; 1 # 10; 7 # 50; 7 # 50];
     [1 # 10; 1; 1 # 10; 1 # 10; 7 # 50; 1 # 10; 7 # 50; 7 # 50];
     [1 # 10; 1 # 10; 1; 1 # 10; 1 # 10; 7 # 50; 7 # 50; 7 # 50];
     [1 # 10; 1 # 10; 1 # 10; 1; 1 # 10; 7 # 50; 7 # 50; 7 # 50];
     [7 # 50; 7 # 50; 1 # 10; 1 # 10; 1; 3 # 25; 3 # 25; 3 # 25];
     [1 # 10; 1 # 10; 7 # 50; 7 # 50; 3 # 25; 1; 3 # 25; 3 # 25];
     [7 # 50; 7 # 50; 7 # 50; 7 # 50; 3 # 25; 3 # 25; 1; 7 # 50];
     [7 # 50; 7 # 50; 7 # 50; 7 # 50; 3 # 25; 3 # 25; 7 # 50; 1]]%Q).

(** A data set of eight features; the selector reads only its number of
    columns, the library supplies the correlations. *)
Definition features8 : ndarray2 Q := mk_ndarray2 9 8 (fun _ _ => 0%Q).

(** Three samples of no feature, and the empty correlation matrix. *)
Definition features0 : ndarray2 Q := mk_ndarray2 3 0 (fun _ _ => 0%Q).
Definition corr0 : ndarray2 Q := square 0 (fun _ _ => 0%Q).

(** * Part II: properties *)

(** ** Comparison of floats *)

Lemma Qgtb_lt (x y : Q) : Qgtb x y = true <-> (y < x)%Q.
Proof.
  unfold Qgtb. rewrite negb_true_iff. split.
  - intros H. apply Qnot_le_lt. intros Hle.
    apply Qle_bool_iff in Hle. congruence.
  - intros H. destruct (Qle_bool x y) eqn:E; [|reflexivity].
    apply Qle_bool_iff in E. exfalso. exact (Qlt_not_le _ _ H E).
Qed.

Lemma Qgtb_le (x y : Q) : Qgtb x y = false <-> (x <= y)%Q.
Proof.
  unfold Qgtb. rewrite negb_false_iff. apply Qle_bool_iff.
Qed.

(** A float exceeds [y] exactly when it is a number above [y]. *)
Lemma float_gtb_true (x : float64) (y : Q) :
  float_gtb x y = true <-> exists v, x = Num v /\ (y < v)%Q.
Proof.
  destruct x as [|q]; simpl.
  - split; [discriminate|intros (v & Hv & _); discriminate].
  - rewrite Qgtb_lt. split.
    + intros H. exists q. split; [reflexivity|exact H].
    + intros (v & [= ->] & H). exact H.
Qed.

(** ** The correlated pairs *)

Lemma combine_fst_snd {A B : Type} (l : list (A * B)) :
  combine (map fst l) (map snd l) = l.
Proof.
  induction l as [|[a b] l IH]; simpl; [reflexivity|]. now rewrite IH.
Qed.

(** [np.column_stack(np.where(b))] lists the true positions of [b]. *)
Lemma column_stack_where (b : ndarray2 bool) :
  np_column_stack (np_where b) = true_positions b.
Proof. unfold np_column_stack, np_where. simpl. apply combine_fst_snd. Qed.

Lemma In_true_positions (b : ndarray2 bool) (i j : nat) :
  In (i, j) (true_positions b) <->
  i < shape0 b /\ j < shape1 b /\ item b i j = true.
Proof.
  unfold true_positions. rewrite in_flat_map. split.
  - intros (i' & Hi & Hin). apply in_map_iff in Hin.
    destruct Hin as (j' & Heq & Hj). inversion Heq; subst i' j'.
    apply filter_In in Hj. destruct Hj as [Hj Hb].
    apply in_seq in Hi. apply in_seq in Hj. repeat split; [lia|lia|exact Hb].
  - intros (Hi & Hj & Hb). exists i. split; [apply in_seq; lia|].
    apply in_map. apply filter_In. split; [apply in_seq; lia|exact Hb].
Qed.

(** Membership in [correlated_pairs], as the code computes it: the
    position is inside the matrix and the entry of [np.triu(., k=1)] at
    it, which is 0 on and below the diagonal, exceeds the threshold. *)
Lemma In_correlated_pairs (m : ndarray2 Q) (t : Q) (i j : nat) :
  In (i, j) (correlated_pairs m t) <->
  i < shape0 m /\ j < shape1 m /\
  Qgtb (if j <? i + 1 then 0%Q else item m i j) t = true.
Proof.
  unfold correlated_pairs. rewrite column_stack_where, In_true_positions.
  reflexivity.
Qed.

(** Above the diagonal the pair is listed exactly when its entry exceeds
    the threshold. *)
Lemma In_correlated_pairs_upper (m : ndarray2 Q) (t : Q) (i j : nat) :
  i < j ->
  (In (i, j) (correlated_pairs m t) <->
   i < shape0 m /\ j < shape1 m /\ (t < item m i j)%Q).
Proof.
  intros Hij. rewrite In_correlated_pairs.
  replace (j <? i + 1) with false by (symmetry; apply Nat.ltb_ge; lia).
  now rewrite Qgtb_lt.
Qed.

(** On and below the diagonal the pair is listed exactly when the
    threshold is negative. *)
Lemma In_correlated_pairs_lower (m : ndarray2 Q) (t : Q) (i j : nat) :
  j <= i ->
  (In (i, j) (correlated_pairs m t) <->
   i < shape0 m /\ j < shape1 m /\ (t < 0)%Q).
Proof.
  intros Hij. rewrite In_correlated_pairs.
  replace (j <? i + 1) with true by (symmetry; apply Nat.ltb_lt; lia).
  now rewrite Qgtb_lt.
Qed.

(** With a non-negative threshold the pairs are those of the strict upper
    triangle whose entry exceeds the threshold. *)
Lemma In_correlated_pairs_nonneg (m : ndarray2 Q) (t : Q) (i j : nat) :
  (0 <= t)%Q ->
  (In (i, j) (correlated_pairs m t) <->
   i < j /\ i < shape0 m /\ j < shape1 m /\ (t < item m i j)%Q).
Proof.
  intros Ht. destruct (Nat.lt_ge_cases i j) as [Hij|Hij].
  - rewrite In_correlated_pairs_upper by exact Hij. tauto.
  - rewrite In_correlated_pairs_lower by exact Hij. split.
    + intros (_ & _ & Hneg). exfalso. exact (Qlt_not_le _ _ Hneg Ht).
    + intros (Hlt & _). lia.
Qed.

(** Raising the threshold can only remove pairs. *)
Lemma correlated_pairs_mono (m : ndarray2 Q) (t1 t2 : Q) (p : nat * nat) :
  (t1 <= t2)%Q -> In p (correlated_pairs m t2) -> In p (correlated_pairs m t1).
Proof.
  intros Ht. destruct p as [i j]. rewrite !In_correlated_pairs.
  intros (Hi & Hj & Hgt). repeat split; [exact Hi|exact Hj|].
  apply Qgtb_lt. apply Qgtb_lt in Hgt. exact (Qle_lt_trans _ _ _ Ht Hgt).
Qed.

(** ** The strict loop *)

Lemma strict_step_pick (cm : nat -> Q) (s : gset nat) (p : nat * nat) :
  strict_step cm s p = {[ strict_pick cm p ]} ∪ s.
Proof.
  unfold strict_step, strict_pick.
  destruct (Qgtb (cm (fst p)) (cm (snd p))); reflexivity.
Qed.

Lemma strict_pick_endpoint (cm : nat -> Q) (p : nat * nat) :
  strict_pick cm p = fst p \/ strict_pick cm p = snd p.
Proof.
  unfold strict_pick. destruct (Qgtb (cm (fst p)) (cm (snd p))); auto.
Qed.


Lemma elem_of_fold_strict_step (cm : nat -> Q) (pairs : list (nat * nat))
    (s : gset nat) (x : nat) :
  x ∈ fold_left (strict_step cm) pairs s <->
  x ∈ s \/ exists p, In p pairs /\ x = strict_pick cm p.
Proof.
  revert s. induction pairs as [|p pairs IH]; intros s; simpl.
  - split; [auto|]. intros [H|(p & [] & _)]. exact H.
  - rewrite IH, strict_step_pick, elem_of_union, elem_of_singleton. split.
    + intros [[->|H]|(q & Hq & ->)]; eauto.
    + intros [H|(q & [<-|Hq] & ->)]; eauto.
Qed.

(** The set the strict loop builds is the set of marked endpoints of the
    pairs it examines. *)
Lemma elem_of_strict_loop (cm : nat -> Q) (pairs : list (nat * nat)) (x : nat) :
  x ∈ strict_loop cm pairs <-> exists p, In p pairs /\ x = strict_pick cm p.
Proof.
  unfold strict_loop. rewrite elem_of_fold_strict_step. split.
  - intros [H|H]; [|exact H]. exfalso. exact (not_elem_of_empty x H).
  - auto.
Qed.

(** ** The selected indices *)

Lemma In_selected_features (idx : list nat) (s : gset nat) (i : nat) :
  In i (selected_features idx s) <-> In i idx /\ i ∉ s.
Proof.
  unfold selected_features. rewrite filter_In, bool_decide_eq_true. reflexivity.
Qed.

Lemma selected_features_all (idx : list nat) (s : gset nat) :
  (forall i, In i idx -> i ∉ s) -> selected_features idx s = idx.
Proof.
  intros H. unfold selected_features. induction idx as [|a idx IH]; simpl.
  - reflexivity.
  - rewrite bool_decide_eq_true_2 by (apply H; now left).
    f_equal. apply IH. intros i Hi. apply H. now right.
Qed.

Lemma selected_features_empty (idx : list nat) :
  selected_features idx ∅ = idx.
Proof.
  apply selected_features_all. intros i _. apply not_elem_of_empty.
Qed.

(** ** Order of the returned lists *)

Lemma StronglySorted_seq (a n : nat) : StronglySorted lt (seq a n).
Proof.
  revert a. induction n as [|n IH]; intros a; simpl; constructor.
  - apply IH.
  - apply List.Forall_forall. intros x Hx. apply in_seq in Hx. lia.
Qed.

Lemma StronglySorted_filter {A : Type} (R : A -> A -> Prop) (f : A -> bool) (l : list A) :
  StronglySorted R l -> StronglySorted R (List.filter f l).
Proof.
  induction 1 as [|a l Hs IH Hall]; simpl; [constructor|].
  destruct (f a); [|exact IH]. constructor; [exact IH|].
  apply List.Forall_forall. intros x Hx. apply filter_In in Hx.
  rewrite List.Forall_forall in Hall. apply Hall. tauto.
Qed.

(** ** The independent-set finder *)

Lemma adjacent_sym (edges : list (nat * nat)) (u v : nat) :
  adjacent edges u v = adjacent edges v u.
Proof.
  unfold adjacent. induction edges as [|e edges IH]; simpl; [reflexivity|].
  rewrite IH. f_equal. apply orb_comm.
Qed.

Lemma adjacent_edge (edges : list (nat * nat)) (i j : nat) :
  In (i, j) edges -> adjacent edges i j = true.
Proof.
  intros H. unfold adjacent. apply existsb_exists. exists (i, j).
  split; [exact H|]. simpl. now rewrite !Nat.eqb_refl.
Qed.

Lemma In_node_universe (edges : list (nat * nat)) (v : nat) :
  In v (node_universe edges) <->
  exists e, In e edges /\ (v = fst e \/ v = snd e).
Proof.
  unfold node_universe. rewrite nodup_In, in_flat_map. split.
  - intros (e & He & Hv). exists e. split; [exact He|].
    simpl in Hv. destruct Hv as [Hv|[Hv|[]]]; auto.
  - intros (e & He & Hv). exists e. split; [exact He|].
    simpl. destruct Hv as [->| ->]; auto.
Qed.

Lemma pick_min_In (edges : list (nat * nat)) (remaining cands : list nat) (best : nat) :
  In (pick_min edges remaining cands best) (best :: cands).
Proof.
  revert best. induction cands as [|c cs IH]; intros best; simpl.
  - now left.
  - destruct (IH (if preferred edges remaining c best then c else best)) as [H|H].
    + destruct (preferred edges remaining c best); rewrite <- H; auto.
    + auto.
Qed.

Lemma In_remove_closed (edges : list (nat * nat)) (v : nat) (remaining : list nat) (u : nat) :
  In u (remove_closed edges v remaining) <->
  In u remaining /\ u <> v /\ adjacent edges v u = false.
Proof.
  unfold remove_closed. rewrite filter_In, andb_true_iff, !negb_true_iff.
  rewrite Nat.eqb_neq. reflexivity.
Qed.

Lemma filter_length_lt {A : Type} (f : A -> bool) (l : list A) (x : A) :
  In x l -> f x = false -> length (List.filter f l) < length l.
Proof.
  induction l as [|a l IH]; simpl; [tauto|].
  intros [->|Hin] Hx.
  - rewrite Hx. pose proof (filter_length_le f l). lia.
  - specialize (IH Hin Hx). destruct (f a); simpl; lia.
Qed.

(** Each round removes at least the chosen node. *)
Lemma remove_closed_shrinks (edges : list (nat * nat)) (v : nat) (remaining : list nat) :
  In v remaining ->
  length (remove_closed edges v remaining) < length remaining.
Proof.
  intros H. unfold remove_closed. apply filter_length_lt with (x := v).
  - exact H.
  - now rewrite Nat.eqb_refl.
Qed.

(** The loop ends within [length remaining] rounds: more fuel changes
    nothing. *)
Lemma greedy_mis_fuel (f1 f2 : nat) (edges : list (nat * nat)) (remaining acc : list nat) :
  length remaining <= f1 -> length remaining <= f2 ->
  greedy_mis f1 edges remaining acc = greedy_mis f2 edges remaining acc.
Proof.
  revert f2 remaining acc.
  induction f1 as [|f1 IH]; intros f2 remaining acc H1 H2.
  - destruct remaining; [|simpl in H1; lia]. destruct f2; reflexivity.
  - destruct remaining as [|v0 rest]; [destruct f2; reflexivity|].
    destruct f2 as [|f2]; [simpl in H2; lia|]. simpl.
    assert (Hlt : length (remove_closed edges (pick_min edges (v0 :: rest) rest v0)
                            (v0 :: rest)) < length (v0 :: rest))
      by (apply remove_closed_shrinks, pick_min_In).
    apply IH; simpl in *; lia.
Qed.

(** Invariant of the loop: no chosen node is, or is adjacent to, a
    remaining node, and no two chosen nodes are adjacent. *)
Lemma greedy_mis_independent (fuel : nat) (edges : list (nat * nat))
    (remaining acc : list nat) :
  (forall a r, In a acc -> In r remaining -> a <> r /\ adjacent edges a r = false) ->
  (forall a b, In a acc -> In b acc -> a <> b -> adjacent edges a b = false) ->
  forall a b, In a (greedy_mis fuel edges remaining acc) ->
              In b (greedy_mis fuel edges remaining acc) ->
              a <> b -> adjacent edges a b = false.
Proof.
  revert remaining acc.
  induction fuel as [|fuel IH]; intros remaining acc Hsep Hind; simpl.
  - exact Hind.
  - destruct remaining as [|v0 rest]; [exact Hind|].
    set (v := pick_min edges (v0 :: rest) rest v0).
    assert (Hv : In v (v0 :: rest)) by apply pick_min_In.
    apply IH.
    + intros a r [<-|Ha] Hr; apply In_remove_closed in Hr;
        destruct Hr as (Hr & Hne & Hadj).
      * split; [congruence|exact Hadj].
      * exact (Hsep a r Ha Hr).
    + intros a b [<-|Ha] [<-|Hb] Hne.
      * congruence.
      * rewrite adjacent_sym. exact (proj2 (Hsep b v Hb Hv)).
      * exact (proj2 (Hsep a v Ha Hv)).
      * exact (Hind a b Ha Hb Hne).
Qed.

(** No two nodes of the independent set are joined by a pair. *)
Lemma maximal_independent_set_independent (pairs : list (nat * nat)) (a b : nat) :
  In a (maximal_independent_set pairs) ->
  In b (maximal_independent_set pairs) ->
  a <> b -> adjacent pairs a b = false.
Proof.
  unfold maximal_independent_set. apply greedy_mis_independent.
  - intros ? ? [].
  - intros ? ? [].
Qed.

(** With [keep = false] the finder returns the nodes of the universe
    that are outside the independent set. *)
Lemma elem_of_find_remove (pairs : list (nat * nat)) (v : nat) :
  v ∈ find_maximal_independent_set pairs false <->
  In v (node_universe pairs) /\ ~ In v (maximal_independent_set pairs).
Proof.
  unfold find_maximal_independent_set.
  rewrite elem_of_list_to_set, list_elem_of_In, filter_In, negb_true_iff.
  split; intros [Hn Hm]; split; try exact Hn.
  - intros Hin. assert (existsb (Nat.eqb v) (maximal_independent_set pairs) = true).
    { apply existsb_exists. exists v. split; [exact Hin|apply Nat.eqb_refl]. }
    congruence.
  - destruct (existsb (Nat.eqb v) (maximal_independent_set pairs)) eqn:E; [|reflexivity].
    apply existsb_exists in E. destruct E as (w & Hw & Heq).
    apply Nat.eqb_eq in Heq. subst w. contradiction.
Qed.

(** The chosen nodes stay chosen. *)
Lemma greedy_mis_acc (fuel : nat) (edges : list (nat * nat)) (remaining acc : list nat) (a : nat) :
  In a acc -> In a (greedy_mis fuel edges remaining acc).
Proof.
  revert remaining acc. induction fuel as [|fuel IH]; intros remaining acc Ha; simpl.
  - exact Ha.
  - destruct remaining as [|v0 rest]; [exact Ha|]. apply IH. now right.
Qed.

(** With enough fuel the loop leaves no node aside: every node it started
    from is chosen or adjacent to a chosen node. *)
Lemma greedy_mis_maximal (fuel : nat) (edges : list (nat * nat))
    (remaining acc : list nat) (u : nat) :
  length remaining <= fuel ->
  In u remaining \/ In u acc \/ (exists a, In a acc /\ adjacent edges a u = true) ->
  In u (greedy_mis fuel edges remaining acc) \/
  exists a, In a (greedy_mis fuel edges remaining acc) /\ adjacent edges a u = true.
Proof.
  revert remaining acc.
  induction fuel as [|fuel IH]; intros remaining acc Hlen Hu.
  - destruct remaining; [|simpl in Hlen; lia]. simpl.
    destruct Hu as [[]|[Hu|Hu]]; [now left|now right].
  - destruct remaining as [|v0 rest].
    + simpl. destruct Hu as [[]|[Hu|Hu]]; [now left|now right].
    + cbn [greedy_mis]. set (v := pick_min edges (v0 :: rest) rest v0).
      assert (Hv : In v (v0 :: rest)) by apply pick_min_In.
      apply IH.
      * pose proof (remove_closed_shrinks edges v (v0 :: rest) Hv) as Hlt.
        cbn [length] in Hlen, Hlt. lia.
      * destruct Hu as [Hu|[Hu|(a & Ha & Hadj)]].
        -- destruct (Nat.eq_dec u v) as [->|Hne]; [right; left; now left|].
           destruct (adjacent edges v u) eqn:E.
           ++ right. right. exists v. split; [now left|exact E].
           ++ left. apply In_remove_closed. auto.
        -- right. left. now right.
        -- right. right. exists a. split; [now right|exact Hadj].
Qed.

(** The set found is maximal: every node of the universe is in it or
    adjacent to one of its nodes. *)
Lemma maximal_independent_set_maximal (pairs : list (nat * nat)) (u : nat) :
  In u (node_universe pairs) ->
  In u (maximal_independent_set pairs) \/
  exists a, In a (maximal_independent_set pairs) /\ adjacent pairs a u = true.
Proof.
  intros Hu. unfold maximal_independent_set.
  apply greedy_mis_maximal; [lia|now left].
Qed.

(** ** Runs of the correlation-based selector *)

Section SelectorRuns.

Variable np_corrcoef : ndarray2 Q -> corr_result.
Variable spearmanr : ndarray2 Q -> corr_result.
Variable np_mean_axis1 : ndarray2 Q -> nat -> Q.

#[local] Abbreviation selector := (multivariate_correlation_selector np_corrcoef spearmanr np_mean_axis1).
#[local] Abbreviation correlation := (correlation_of np_corrcoef spearmanr).

Lemma correlation_of_supported (corr_method : string) (fsdf : ndarray2 Q) :
  supported_method corr_method <-> exists c, correlation corr_method fsdf = Some c.
Proof.
  unfold supported_method, correlation_of.
  destruct (String.eqb_spec corr_method "pearson") as [->|Hp].
  - split; eauto.
  - destruct (String.eqb_spec corr_method "spearman") as [->|Hs].
    + split; eauto.
    + split; [intros [?|?]; contradiction|intros (c & Hc); discriminate].
Qed.

Lemma run_unsupported_method (fsdf : ndarray2 Q) (mode : string) (t : Q) (corr_method : string) :
  correlation corr_method fsdf = None ->
  selector fsdf mode t corr_method =
  ([], inl (ValueError (unsupported_method corr_method))).
Proof.
  unfold correlation_of, multivariate_correlation_selector.
  destruct (String.eqb corr_method "pearson"); [discriminate|].
  destruct (String.eqb corr_method "spearman"); [discriminate|].
  reflexivity.
Qed.

(** Both supported methods lead to the same run, up to the name of the
    first library call. *)
Ltac run_by_method :=
  unfold correlation_of, multivariate_correlation_selector, correlation_call;
  match goal with
  | |- context [String.eqb ?meth "pearson"] =>
      destruct (String.eqb meth "pearson");
      [ intros [= ->]; reflexivity
      | destruct (String.eqb meth "spearman");
        [ intros [= ->]; reflexivity | discriminate ] ]
  end.

Lemma run_0d (fsdf : ndarray2 Q) (mode : string) (t : Q) (corr_method : string)
    (x : float64) :
  correlation corr_method fsdf = Some (Corr0d x) ->
  selector fsdf mode t corr_method =
  ([correlation_call corr_method; NpAbs; NpTriu],
   inl (TypeError "tri() missing 1 required positional argument: 'N'")).
Proof. run_by_method. Qed.

(** An exception raised by the correlation routine ends the run. *)
Lemma run_raised (fsdf : ndarray2 Q) (mode : string) (t : Q) (corr_method : string) (e : exn) :
  correlation corr_method fsdf = Some (CorrRaised e) ->
  selector fsdf mode t corr_method = ([correlation_call corr_method], inl e).
Proof. run_by_method. Qed.

Lemma run_strict (fsdf : ndarray2 Q) (t : Q) (corr_method : string) (m : ndarray2 Q) :
  correlation corr_method fsdf = Some (Corr2d m) ->
  selector fsdf "strict" t corr_method =
  ([correlation_call corr_method; NpAbs; NpTriu; NpGreater; NpWhere;
    NpColumnStack; NpMean],
   inr (selected_features (seq 0 (shape1 fsdf))
          (strict_index_to_remove np_mean_axis1 (np_abs m) t))).
Proof. run_by_method. Qed.

Lemma run_approximate (fsdf : ndarray2 Q) (t : Q) (corr_method : string) (m : ndarray2 Q) :
  correlation corr_method fsdf = Some (Corr2d m) ->
  selector fsdf "approximate" t corr_method =
  ([correlation_call corr_method; NpAbs; NpTriu; NpGreater; NpWhere;
    NpColumnStack; FindMIS],
   inr (selected_features (seq 0 (shape1 fsdf))
          (approximate_index_to_remove (np_abs m) t))).
Proof. run_by_method. Qed.

Lemma run_unsupported_mode (fsdf : ndarray2 Q) (mode : string) (t : Q)
    (corr_method : string) (m : ndarray2 Q) :
  correlation corr_method fsdf = Some (Corr2d m) ->
  ~ supported_mode mode ->
  selector fsdf mode t corr_method =
  ([correlation_call corr_method; NpAbs; NpTriu; NpGreater; NpWhere;
    NpColumnStack],
   inl (ValueError (unsupported_mode mode))).
Proof.
  unfold supported_mode. intros Hc Hmode.
  assert (E1 : String.eqb mode "strict" = false)
    by (apply String.eqb_neq; tauto).
  assert (E2 : String.eqb mode "approximate" = false)
    by (apply String.eqb_neq; tauto).
  revert Hc.
  unfold multivariate_correlation_selector. rewrite E1, E2.
  run_by_method.
Qed.

End SelectorRuns.

(** ** Facts shared by the claims *)

(** A pair of distinct features whose absolute correlation exceeds the
    threshold is examined. *)
Lemma above_threshold_examined (n : nat) (f : nat -> nat -> Q) (t : Q) (i j : nat) :
  i < j -> j < n -> (t < Qabs (f i j))%Q ->
  In (i, j) (correlated_pairs (np_abs (square n f)) t).
Proof.
  intros Hij Hj Habove. apply In_correlated_pairs_upper; [exact Hij|].
  simpl. repeat split; [lia|lia|exact Habove].
Qed.

(** Without a pair above the threshold among distinct features, the list
    of correlated pairs is empty, provided the matrix is not 1 by 1. *)
Lemma correlated_pairs_nil (n : nat) (f : nat -> nat -> Q) (t : Q) :
  n <> 1 ->
  (forall i j, i < j -> j < n -> (Qabs (f i j) <= t)%Q) ->
  correlated_pairs (np_abs (square n f)) t = [].
Proof.
  intros Hn Hno.
  destruct (correlated_pairs (np_abs (square n f)) t) as [|[i j] l] eqn:E;
    [reflexivity|exfalso].
  assert (Hin : In (i, j) (correlated_pairs (np_abs (square n f)) t))
    by (rewrite E; now left).
  destruct (Nat.lt_ge_cases i j) as [Hij|Hij].
  - apply In_correlated_pairs_upper in Hin; [|exact Hij].
    simpl in Hin. destruct Hin as (_ & Hj & Habove).
    exact (Qlt_not_le _ _ Habove (Hno i j Hij Hj)).
  - apply In_correlated_pairs_lower in Hin; [|exact Hij].
    simpl in Hin. destruct Hin as (Hi & _ & Hneg).
    assert (H01 : (Qabs (f 0%nat 1%nat) <= t)%Q) by (apply Hno; lia).
    pose proof (Qabs_nonneg (f 0%nat 1%nat)) as Hpos.
    exact (Qlt_not_le _ _ Hneg (Qle_trans _ _ _ Hpos H01)).
Qed.

Lemma strict_index_to_remove_mono (np_mean_axis1 : ndarray2 Q -> nat -> Q)
    (m : ndarray2 Q) (t1 t2 : Q) :
  (t1 <= t2)%Q ->
  strict_index_to_remove np_mean_axis1 m t2 ⊆ strict_index_to_remove np_mean_axis1 m t1.
Proof.
  intros Ht x. unfold strict_index_to_remove. rewrite !elem_of_strict_loop.
  intros (p & Hp & ->). exists p. split; [|reflexivity].
  exact (correlated_pairs_mono m t1 t2 p Ht Hp).
Qed.

Lemma supported_method_dec (corr_method : string) :
  {supported_method corr_method} + {~ supported_method corr_method}.
Proof.
  unfold supported_method.
  destruct (String.eqb_spec corr_method "pearson") as [Hp|Hp]; [left; auto|].
  destruct (String.eqb_spec corr_method "spearman") as [Hs|Hs]; [left; auto|].
  right. tauto.
Qed.

Lemma supported_mode_dec (selection_mode : string) :
  {supported_mode selection_mode} + {~ supported_mode selection_mode}.
Proof.
  unfold supported_mode.
  destruct (String.eqb_spec selection_mode "strict") as [Hp|Hp]; [left; auto|].
  destruct (String.eqb_spec selection_mode "approximate") as [Hs|Hs]; [left; auto|].
  right. tauto.
Qed.

(** * Part III: the claims about the correlation-based selector *)

Section Claims.

Variable np_corrcoef : ndarray2 Q -> corr_result.
Variable spearmanr : ndarray2 Q -> corr_result.
Variable np_mean_axis1 : ndarray2 Q -> nat -> Q.

#[local] Abbreviation selector := (multivariate_correlation_selector np_corrcoef spearmanr np_mean_axis1).
#[local] Abbreviation correlation := (correlation_of np_corrcoef spearmanr).


(** C2.  Strict mode: for every pair [(i, j)] with [i < j] whose absolute
    correlation strictly exceeds the threshold, at least one of [i] and
    [j] is marked for removal; equivalently the returned list does not
    contain both. *)
Theorem strict_coverage
    (fsdf : ndarray2 Q) (t : Q) (corr_method : string)
    (n : nat) (f : nat -> nat -> Q) (i j : nat) :
  correlation corr_method fsdf = Some (Corr2d (square n f)) ->
  i < j -> j < n -> (t < Qabs (f i j))%Q ->
  (i ∈ strict_index_to_remove np_mean_axis1 (np_abs (square n f)) t \/
   j ∈ strict_index_to_remove np_mean_axis1 (np_abs (square n f)) t) /\
  exists sel,
    outcome (selector fsdf "strict" t corr_method) = inr sel /\
    ~ (In i sel /\ In j sel).
Proof.
  intros Hc Hij Hj Habove.
  set (cm := np_mean_axis1 (np_abs (square n f))).
  assert (Hin : In (i, j) (correlated_pairs (np_abs (square n f)) t))
    by exact (above_threshold_examined n f t i j Hij Hj Habove).
  assert (Hpick : strict_pick cm (i, j) ∈ strict_index_to_remove np_mean_axis1 (np_abs (square n f)) t).
  { apply elem_of_strict_loop. eauto. }
  assert (Hor : i ∈ strict_index_to_remove np_mean_axis1 (np_abs (square n f)) t \/
                j ∈ strict_index_to_remove np_mean_axis1 (np_abs (square n f)) t).
  { destruct (strict_pick_endpoint cm (i, j)) as [E|E]; simpl in E;
      rewrite E in Hpick; auto. }
  split; [exact Hor|].
  eexists. split; [rewrite (run_strict _ _ _ _ _ _ _ Hc); reflexivity|].
  rewrite !In_selected_features. tauto.
Qed.

(** C10.  Strict mode: when the two endpoints of an examined pair
    [(i, j)], [i < j], have exactly equal mean absolute correlation, as
    numpy computes the means the loop compares, the loop marks the
    higher index [j]: examining the pair adds [j] and leaves [i] as it
    was (the decision keeps the lower index), so [j] is in the final set
    and is not returned. *)
Theorem strict_tie_marks_higher_index
    (fsdf : ndarray2 Q) (t : Q) (corr_method : string)
    (n : nat) (f : nat -> nat -> Q) (i j : nat) :
  correlation corr_method fsdf = Some (Corr2d (square n f)) ->
  i < j -> j < n -> (t < Qabs (f i j))%Q ->
  (np_mean_axis1 (np_abs (square n f)) i ==
   np_mean_axis1 (np_abs (square n f)) j)%Q ->
  let col_means := np_mean_axis1 (np_abs (square n f)) in
  In (i, j) (correlated_pairs (np_abs (square n f)) t) /\
  (forall s, strict_step col_means s (i, j) = {[ j ]} ∪ s) /\
  (forall s, i ∈ strict_step col_means s (i, j) <-> i ∈ s) /\
  j ∈ strict_index_to_remove np_mean_axis1 (np_abs (square n f)) t /\
  exists sel,
    outcome (selector fsdf "strict" t corr_method) = inr sel /\ ~ In j sel.
Proof.
  intros Hc Hij Hj Habove Htie col_means.
  assert (Hin : In (i, j) (correlated_pairs (np_abs (square n f)) t))
    by exact (above_threshold_examined n f t i j Hij Hj Habove).
  assert (Hpick : strict_pick col_means (i, j) = j).
  { unfold strict_pick. simpl.
    replace (Qgtb (col_means i) (col_means j)) with false; [reflexivity|].
    symmetry. apply Qgtb_le. unfold col_means. rewrite Htie. apply Qle_refl. }
  assert (Hstep : forall s, strict_step col_means s (i, j) = {[ j ]} ∪ s).
  { intros s. rewrite strict_step_pick, Hpick. reflexivity. }
  assert (Hdrop : j ∈ strict_index_to_remove np_mean_axis1 (np_abs (square n f)) t).
  { apply elem_of_strict_loop. exists (i, j). split; [exact Hin|].
    symmetry. exact Hpick. }
  split; [exact Hin|]. split; [exact Hstep|]. split.
  - intros s. rewrite Hstep, elem_of_union, elem_of_singleton. split.
    + intros [Heq|Hs]; [lia|exact Hs].
    + auto.
  - split; [exact Hdrop|].
    eexists. split; [rewrite (run_strict _ _ _ _ _ _ _ Hc); reflexivity|].
    rewrite In_selected_features. tauto.
Qed.

(** C3.  Approximate mode, correlation matrix [f] of the features of
    [fsdf]: the selector returns a list, and any two indices [i < j] of
    that list have absolute correlation at most the threshold; the
    matrix being symmetric, so have any two distinct indices of the
    list, in either order. *)
Theorem approximate_independence
    (fsdf : ndarray2 Q) (t : Q) (corr_method : string) (f : nat -> nat -> Q) :
  correlation corr_method fsdf = Some (Corr2d (square (shape1 fsdf) f)) ->
  exists sel,
    outcome (selector fsdf "approximate" t corr_method) = inr sel /\
    (forall i j, In i sel -> In j sel -> i < j -> (Qabs (f i j) <= t)%Q) /\
    ((forall a b, (f a b == f b a)%Q) ->
     forall i j, In i sel -> In j sel -> i <> j -> (Qabs (f i j) <= t)%Q).
Proof.
  intros Hc. eexists.
  split; [rewrite (run_approximate _ _ _ _ _ _ _ Hc); reflexivity|].
  match goal with |- ?A /\ _ => assert (Hupper : A) end;
    [|split; [exact Hupper|];
      intros Hsym i j Hi Hj Hne;
      destruct (Nat.lt_ge_cases i j) as [Hij|Hij];
      [exact (Hupper i j Hi Hj Hij)|];
      rewrite (Hsym i j); apply (Hupper j i Hj Hi); lia].
  intros i j Hi Hj Hij.
  apply In_selected_features in Hi. destruct Hi as [Hi Hik].
  apply In_selected_features in Hj. destruct Hj as [Hj Hjk].
  apply in_seq in Hi. apply in_seq in Hj.
  destruct (Qlt_le_dec t (Qabs (f i j))) as [Habove|Hle]; [exfalso|exact Hle].
  set (pairs := correlated_pairs (np_abs (square (shape1 fsdf) f)) t) in *.
  assert (Hin : In (i, j) pairs)
    by (apply above_threshold_examined; [exact Hij|lia|exact Habove]).
  assert (Hmis : forall v, In v (node_universe pairs) ->
                           v ∉ approximate_index_to_remove (np_abs (square (shape1 fsdf) f)) t ->
                           In v (maximal_independent_set pairs)).
  { intros v Hv Hnot.
    destruct (in_dec Nat.eq_dec v (maximal_independent_set pairs)) as [H|H];
      [exact H|exfalso].
    apply Hnot. apply elem_of_find_remove. split; [exact Hv|exact H]. }
  assert (Hi' : In i (maximal_independent_set pairs)).
  { apply Hmis; [|exact Hik]. apply In_node_universe. exists (i, j). auto. }
  assert (Hj' : In j (maximal_independent_set pairs)).
  { apply Hmis; [|exact Hjk]. apply In_node_universe. exists (i, j). auto. }
  assert (Hadj : adjacent pairs i j = false).
  { apply maximal_independent_set_independent; [exact Hi'|exact Hj'|lia]. }
  rewrite (adjacent_edge pairs i j Hin) in Hadj. discriminate.
Qed.


(** C5, as amended.  Strict mode: raising the threshold from [t1] to
    [t2] never adds an index to the set marked for removal, so the set
    does not grow in size and every index returned at [t1] is returned
    at [t2]. *)
Theorem strict_threshold_monotone
    (fsdf : ndarray2 Q) (t1 t2 : Q) (corr_method : string) (m : ndarray2 Q) :
  correlation corr_method fsdf = Some (Corr2d m) ->
  (t1 <= t2)%Q ->
  strict_index_to_remove np_mean_axis1 (np_abs m) t2 ⊆ strict_index_to_remove np_mean_axis1 (np_abs m) t1 /\
  size (strict_index_to_remove np_mean_axis1 (np_abs m) t2) <=
  size (strict_index_to_remove np_mean_axis1 (np_abs m) t1) /\
  exists sel1 sel2,
    outcome (selector fsdf "strict" t1 corr_method) = inr sel1 /\
    outcome (selector fsdf "strict" t2 corr_method) = inr sel2 /\
    forall i, In i sel1 -> In i sel2.
Proof.
  intros Hc Ht.
  pose proof (strict_index_to_remove_mono np_mean_axis1 (np_abs m) t1 t2 Ht) as Hsub.
  split; [exact Hsub|]. split; [apply subseteq_size, Hsub|].
  eexists. eexists.
  split; [rewrite (run_strict _ _ _ _ _ _ _ Hc); reflexivity|].
  split; [rewrite (run_strict _ _ _ _ _ _ _ Hc); reflexivity|].
  intros i. rewrite !In_selected_features. intros [Hi Hnot].
  split; [exact Hi|]. intros Hin. apply Hnot, Hsub, Hin.
Qed.

(** C6, as amended.  The selector has no guard of its own for fewer than
    two features: on a feature matrix with no column or a single column
    it calls the correlation routine like on any other, and what happens
    next follows from the outcome [c] of that call.  When the routine
    raises, its exception ends the run after that one call.  When it
    returns a 0-d array, [np.abs] accepts it, [np.triu] raises
    [TypeError] and no list is returned.  When it returns a matrix with
    one row and one column per feature, the full index list is returned
    if there is no feature or the threshold is not negative; strict mode
    returns the empty list if there is one feature and the threshold is
    negative. *)
Theorem fewer_than_two_features
    (fsdf : ndarray2 Q) (selection_mode : string) (t : Q) (corr_method : string)
    (c : corr_result) :
  shape1 fsdf < 2 ->
  correlation corr_method fsdf = Some c ->
  supported_mode selection_mode ->
  match c with
  | CorrRaised e =>
      selector fsdf selection_mode t corr_method =
      ([correlation_call corr_method], inl e)
  | Corr0d _ =>
      selector fsdf selection_mode t corr_method =
      ([correlation_call corr_method; NpAbs; NpTriu],
       inl (TypeError "tri() missing 1 required positional argument: 'N'"))
  | Corr2d m =>
      shape0 m = shape1 fsdf -> shape1 m = shape1 fsdf ->
      (shape1 fsdf = 0 \/ (0 <= t)%Q ->
       outcome (selector fsdf selection_mode t corr_method) =
       inr (seq 0 (shape1 fsdf))) /\
      (shape1 fsdf = 1 -> (t < 0)%Q ->
       outcome (selector fsdf "strict" t corr_method) = inr [])
  end.
Proof.
  intros Hn Hc Hmode. destruct c as [x|m|e].
  - exact (run_0d _ _ _ _ _ _ _ _ Hc).
  - intros Hrows Hcols. split.
    + intros Hcase.
      assert (Hnil : correlated_pairs (np_abs m) t = []).
      { destruct (correlated_pairs (np_abs m) t) as [|[i j] l] eqn:E;
          [reflexivity|exfalso].
        assert (Hin : In (i, j) (correlated_pairs (np_abs m) t))
          by (rewrite E; now left).
        apply In_correlated_pairs in Hin. simpl in Hin.
        destruct Hin as (Hi & Hj & Hgt).
        destruct Hcase as [H0|Ht]; [lia|].
        replace (j <? i + 1) with true in Hgt
          by (symmetry; apply Nat.ltb_lt; lia).
        apply Qgtb_lt in Hgt. exact (Qlt_not_le _ _ Hgt Ht). }
      destruct Hmode as [-> | ->].
      * rewrite (run_strict _ _ _ _ _ _ _ Hc). unfold outcome. simpl.
        unfold strict_index_to_remove. rewrite Hnil.
        unfold strict_loop. simpl. now rewrite selected_features_empty.
      * rewrite (run_approximate _ _ _ _ _ _ _ Hc). unfold outcome. simpl.
        unfold approximate_index_to_remove. rewrite Hnil.
        change (find_maximal_independent_set [] false) with (∅ : gset nat).
        now rewrite selected_features_empty.
    + intros H1 Ht.
      assert (Hpairs : correlated_pairs (np_abs m) t = [(0, 0)]).
      { unfold correlated_pairs.
        rewrite column_stack_where. unfold true_positions.
        cbn [np_greater np_triu np_abs shape0 shape1 item].
        rewrite Hrows, Hcols, H1. cbn [seq flat_map List.filter map app Nat.ltb Nat.leb Nat.add].
        replace (Qgtb 0 t) with true by (symmetry; now apply Qgtb_lt).
        reflexivity. }
      rewrite (run_strict _ _ _ _ _ _ _ Hc). unfold outcome. simpl.
      unfold strict_index_to_remove. rewrite Hpairs, H1.
      unfold strict_loop, strict_step. cbn [fold_left fst snd].
      destruct (Qgtb _ _); reflexivity.
  - exact (run_raised _ _ _ _ _ _ _ _ Hc).
Qed.

(** C7, as amended.  On data for which the library returns a correlation
    matrix, the selector raises exactly when [corr_method] or
    [selection_mode] is unsupported.  An unsupported [corr_method] is
    rejected before any library call.  An unsupported [selection_mode]
    is rejected only after the correlation matrix, its absolute value,
    its upper triangle and the list of pairs have been computed.  A run
    that raises returns no index list. *)
Theorem validation_errors
    (fsdf : ndarray2 Q) (selection_mode : string) (t : Q) (corr_method : string)
    (m1 m2 : ndarray2 Q) :
  np_corrcoef fsdf = Corr2d m1 ->
  spearmanr fsdf = Corr2d m2 ->
  ((exists e, outcome (selector fsdf selection_mode t corr_method) = inl e) <->
   ~ supported_method corr_method \/ ~ supported_mode selection_mode) /\
  (~ supported_method corr_method ->
   selector fsdf selection_mode t corr_method =
   ([], inl (ValueError (unsupported_method corr_method)))) /\
  (supported_method corr_method -> ~ supported_mode selection_mode ->
   selector fsdf selection_mode t corr_method =
   ([correlation_call corr_method; NpAbs; NpTriu; NpGreater; NpWhere;
     NpColumnStack],
    inl (ValueError (unsupported_mode selection_mode)))) /\
  (forall e, outcome (selector fsdf selection_mode t corr_method) = inl e ->
             forall l, outcome (selector fsdf selection_mode t corr_method) <> inr l).
Proof.
  intros H1 H2.
  assert (Hbad : ~ supported_method corr_method ->
                 selector fsdf selection_mode t corr_method =
                 ([], inl (ValueError (unsupported_method corr_method)))).
  { intros Hnot. apply run_unsupported_method.
    destruct (correlation corr_method fsdf) as [c|] eqn:E; [|reflexivity].
    exfalso. apply Hnot. apply (correlation_of_supported np_corrcoef spearmanr _ fsdf).
    eauto. }
  assert (Hgood : supported_method corr_method ->
                  exists m, correlation corr_method fsdf = Some (Corr2d m)).
  { intros [-> | ->]; unfold correlation_of; simpl.
    - exists m1. now rewrite H1.
    - exists m2. now rewrite H2. }
  assert (Hmode : supported_method corr_method -> ~ supported_mode selection_mode ->
                  selector fsdf selection_mode t corr_method =
                  ([correlation_call corr_method; NpAbs; NpTriu; NpGreater; NpWhere;
                    NpColumnStack],
                   inl (ValueError (unsupported_mode selection_mode)))).
  { intros Hm Hnot. destruct (Hgood Hm) as (m & Hc).
    exact (run_unsupported_mode _ _ _ _ _ _ _ _ Hc Hnot). }
  split; [|split; [exact Hbad|split; [exact Hmode|]]].
  - split.
    + intros (e & He).
      destruct (supported_method_dec corr_method) as [Hm|Hm]; [|now left].
      destruct (supported_mode_dec selection_mode) as [Hs|Hs]; [|now right].
      exfalso. destruct (Hgood Hm) as (m & Hc).
      destruct Hs as [-> | ->].
      * rewrite (run_strict _ _ _ _ _ _ _ Hc) in He. discriminate.
      * rewrite (run_approximate _ _ _ _ _ _ _ Hc) in He. discriminate.
    + intros Hor.
      destruct (supported_method_dec corr_method) as [Hm|Hm].
      * destruct Hor as [Hnm|Hns]; [contradiction|].
        rewrite (Hmode Hm Hns). eexists. reflexivity.
      * rewrite (Hbad Hm). eexists. reflexivity.
  - intros e He l Hl. rewrite He in Hl. discriminate.
Qed.

(** X1.  Whatever the options, a list returned by the selector is in
    strictly ascending order (hence without duplicates) and holds only
    indices of features of [fsdf]. *)
Theorem selected_ascending_in_range
    (fsdf : ndarray2 Q) (selection_mode : string) (t : Q) (corr_method : string)
    (sel : list nat) :
  outcome (selector fsdf selection_mode t corr_method) = inr sel ->
  StronglySorted lt sel /\ forall i, In i sel -> i < shape1 fsdf.
Proof.
  intros Hrun.
  assert (Hsel : exists s, sel = selected_features (seq 0 (shape1 fsdf)) s).
  { destruct (correlation corr_method fsdf) as [[x|m|e]|] eqn:Hc.
    - rewrite (run_0d _ _ _ _ _ _ _ _ Hc) in Hrun. discriminate.
    - destruct (supported_mode_dec selection_mode) as [[-> | ->]|Hs].
      + rewrite (run_strict _ _ _ _ _ _ _ Hc) in Hrun.
        injection Hrun as <-. eauto.
      + rewrite (run_approximate _ _ _ _ _ _ _ Hc) in Hrun.
        injection Hrun as <-. eauto.
      + rewrite (run_unsupported_mode _ _ _ _ _ _ _ _ Hc Hs) in Hrun. discriminate.
    - rewrite (run_raised _ _ _ _ _ _ _ _ Hc) in Hrun. discriminate.
    - rewrite (run_unsupported_method _ _ _ _ _ _ _ Hc) in Hrun. discriminate. }
  destruct Hsel as (s & ->). split.
  - apply StronglySorted_filter, StronglySorted_seq.
  - intros i Hi. apply In_selected_features in Hi. destruct Hi as [Hi _].
    apply in_seq in Hi. lia.
Qed.

End Claims.

(** ** Witnesses and counterexamples *)


Lemma strict_coverage_witness :
  correlation_of (library_returning (Corr2d corr3)) (library_returning (Corr2d corr3))
    "pearson" features3 = Some (Corr2d corr3) /\
  0 < 1 /\ 1 < 3 /\
  (3 # 4 < Qabs (table [[1; 1; 0]; [1; 1; 0]; [0; 0; 1]]%Q 0 1))%Q /\
  (0 ∈ strict_index_to_remove exact_mean_axis1 (np_abs corr3) (3 # 4) \/
   1 ∈ strict_index_to_remove exact_mean_axis1 (np_abs corr3) (3 # 4)).
Proof.
  split; [reflexivity|]. split; [lia|]. split; [lia|]. split; [reflexivity|].
  apply (strict_coverage
           (library_returning (Corr2d corr3)) (library_returning (Corr2d corr3))
           exact_mean_axis1
           features3 (3 # 4) "pearson" 3
           (table [[1; 1; 0]; [1; 1; 0]; [0; 0; 1]]%Q) 0 1);
    [reflexivity|lia|lia|reflexivity].
Defined.

Lemma strict_tie_marks_higher_index_witness :
  (exact_mean_axis1 (np_abs corr3) 0 == exact_mean_axis1 (np_abs corr3) 1)%Q /\
  1 ∈ strict_index_to_remove exact_mean_axis1 (np_abs corr3) (3 # 4).
Proof.
  split; [reflexivity|].
  apply (strict_tie_marks_higher_index
           (library_returning (Corr2d corr3)) (library_returning (Corr2d corr3))
           exact_mean_axis1
           features3 (3 # 4) "pearson" 3
           (table [[1; 1; 0]; [1; 1; 0]; [0; 0; 1]]%Q) 0 1);
    [reflexivity|lia|lia|reflexivity|reflexivity].
Defined.

Lemma approximate_independence_witness :
  correlation_of (library_returning (Corr2d corr8)) (library_returning (Corr2d corr8))
    "pearson" features8 = Some (Corr2d corr8) /\
  exists sel,
    outcome (multivariate_correlation_selector
               (library_returning (Corr2d corr8)) (library_returning (Corr2d corr8))
               exact_mean_axis1
               features8 "approximate" (13 # 100) "pearson") = inr sel /\
    forall i j, In i sel -> In j sel -> i < j ->
                (Qabs (item corr8 i j) <= 13 # 100)%Q.
Proof.
  split; [reflexivity|].
  destruct (approximate_independence
              (library_returning (Corr2d corr8)) (library_returning (Corr2d corr8))
              exact_mean_axis1
              features8 (13 # 100) "pearson" (item corr8) eq_refl)
    as (sel & Hrun & Hupper & _).
  exists sel. split; [exact Hrun|exact Hupper].
Defined.



Lemma strict_threshold_monotone_witness :
  (11 # 100 <= 13 # 100)%Q /\
  size (strict_index_to_remove exact_mean_axis1 (np_abs corr8) (13 # 100)) <=
  size (strict_index_to_remove exact_mean_axis1 (np_abs corr8) (11 # 100)).
Proof.
  split; [discriminate|].
  apply (strict_threshold_monotone
           (library_returning (Corr2d corr8)) (library_returning (Corr2d corr8))
           exact_mean_axis1
           features8 (11 # 100) (13 # 100) "pearson" corr8);
    [reflexivity|discriminate].
Defined.

(** C5 fails in approximate mode.  On [corr8], at threshold 11/100 the
    finder keeps features 0-3 and four indices are removed; at the higher
    threshold 13/100 the pairs among 4-7 are no longer edges, the finder
    starts from feature 4, and five indices are removed.  The degrees
    that decide the choices differ strictly, so the outcome does not
    depend on how ties are broken. *)
Lemma approximate_threshold_not_monotone :
  (11 # 100 <= 13 # 100)%Q /\
  size (approximate_index_to_remove (np_abs corr8) (11 # 100)) = 4 /\
  size (approximate_index_to_remove (np_abs corr8) (13 # 100)) = 5 /\
  outcome (multivariate_correlation_selector
             (library_returning (Corr2d corr8)) (library_returning (Corr2d corr8))
             exact_mean_axis1
             features8 "approximate" (11 # 100) "pearson") = inr [0; 1; 2; 3] /\
  outcome (multivariate_correlation_selector
             (library_returning (Corr2d corr8)) (library_returning (Corr2d corr8))
             exact_mean_axis1
             features8 "approximate" (13 # 100) "pearson") = inr [4; 5; 6].
Proof.
  split; [discriminate|]. repeat split; vm_compute; reflexivity.
Qed.

(** C4 at a negative threshold: for two features with correlation 1/2
    and threshold -1/2, the zeros that [np.triu] writes on and below the
    diagonal exceed the threshold, so the diagonal pairs (0,0), (1,1)
    and the lower pair (1,0) are examined as well, and strict mode
    removes every feature. *)
Lemma negative_threshold_examines_diagonal :
  correlated_pairs (np_abs corr2) (-1 # 2) = [(0, 0); (0, 1); (1, 0); (1, 1)] /\
  outcome (multivariate_correlation_selector
             (library_returning (Corr2d corr2)) (library_returning (Corr2d corr2))
             exact_mean_axis1
             features2 "strict" (-1 # 2) "pearson") = inr [].
Proof. split; vm_compute; reflexivity. Qed.

Lemma fewer_than_two_features_witness :
  shape1 features0 < 2 /\
  correlation_of (library_returning (Corr2d corr0)) (library_returning (Corr2d corr0))
    "pearson" features0 = Some (Corr2d corr0) /\
  outcome (multivariate_correlation_selector
             (library_returning (Corr2d corr0)) (library_returning (Corr2d corr0))
             exact_mean_axis1 features0 "strict" (3 # 4) "pearson") = inr [].
Proof.
  assert (Hn : shape1 features0 < 2) by (simpl; lia).
  split; [exact Hn|]. split; [reflexivity|].
  exact (proj1 (fewer_than_two_features
                  (library_returning (Corr2d corr0)) (library_returning (Corr2d corr0))
                  exact_mean_axis1 features0 "strict" (3 # 4) "pearson" (Corr2d corr0)
                  Hn eq_refl (or_introl eq_refl) eq_refl eq_refl)
               (or_introl eq_refl)).
Defined.

(** C6 fails for a single feature.  With [pearson], [np.corrcoef]
    squeezes the 1 by 1 covariance of a single column to a 0-d array,
    [np.triu] cannot build its mask from it and raises; with [spearman],
    [spearmanr] itself raises.  Either way the selector returns no list
    instead of [[0]]. *)
Lemma single_feature_raises :
  shape1 features1 = 1 /\
  multivariate_correlation_selector
    (library_returning (Corr0d (Num 1))) (library_returning spearmanr_single_column)
    exact_mean_axis1 features1 "strict" (3 # 4) "pearson" =
  ([NpCorrcoef; NpAbs; NpTriu],
   inl (TypeError "tri() missing 1 required positional argument: 'N'")) /\
  multivariate_correlation_selector
    (library_returning (Corr0d (Num 1))) (library_returning spearmanr_single_column)
    exact_mean_axis1 features1 "strict" (3 # 4) "spearman" =
  ([Spearmanr],
   inl (IndexError "index 1 is out of bounds for axis 1 with size 1")).
Proof. repeat split; reflexivity. Qed.

Lemma validation_errors_witness :
  library_returning (Corr2d corr2) features2 = Corr2d corr2 /\
  multivariate_correlation_selector
    (library_returning (Corr2d corr2)) (library_returning (Corr2d corr2))
    exact_mean_axis1
    features2 "strict" (3 # 4) "kendall" =
  ([], inl (ValueError (unsupported_method "kendall"))).
Proof.
  split; [reflexivity|].
  refine (proj1 (proj2 (validation_errors
           (library_returning (Corr2d corr2)) (library_returning (Corr2d corr2))
           exact_mean_axis1
           features2 "strict" (3 # 4) "kendall" corr2 corr2 eq_refl eq_refl)) _).
  intros [H|H]; discriminate.
Defined.

(** C7 fails for the selection mode: with a supported correlation method
    and an unsupported mode the error is raised only after the
    correlation matrix and the pairs have been computed. *)
Lemma unsupported_mode_raised_after_computation :
  multivariate_correlation_selector
    (library_returning (Corr2d corr2)) (library_returning (Corr2d corr2))
    exact_mean_axis1
    features2 "bogus" (3 # 4) "pearson" =
  ([NpCorrcoef; NpAbs; NpTriu; NpGreater; NpWhere; NpColumnStack],
   inl (ValueError "Unsupported selection mode 'bogus'. Use 'strict' or 'approximate'.")).
Proof. reflexivity. Qed.

Lemma selected_ascending_in_range_witness :
  StronglySorted lt [0; 2] /\ forall i, In i [0; 2] -> i < shape1 features3.
Proof.
  apply (selected_ascending_in_range
           (library_returning (Corr2d corr3)) (library_returning (Corr2d corr3))
           exact_mean_axis1
           features3 "strict" (3 # 4) "pearson" [0; 2]).
  vm_compute. reflexivity.
Defined.

(** The example of the spec: of two perfectly correlated features
    and an independent one, with threshold 0.75 in strict mode, exactly
    one of the correlated two is removed (the higher index, the means
    being equal) and the independent feature is kept. *)
Lemma strict_example_two_correlated_one_independent :
  elements (strict_index_to_remove exact_mean_axis1 (np_abs corr3) (3 # 4)) = [1] /\
  outcome (multivariate_correlation_selector
             (library_returning (Corr2d corr3)) (library_returning (Corr2d corr3))
             exact_mean_axis1
             features3 "strict" (3 # 4) "pearson") = inr [0; 2].
Proof. split; vm_compute; reflexivity. Qed.

(** X2.  With a non-negative threshold the pairs the selector examines
    are exactly the pairs [(i, j)], [i < j], of features whose absolute
    correlation strictly exceeds the threshold. *)
Theorem nonnegative_threshold_examines_upper_triangle
    (n : nat) (f : nat -> nat -> Q) (t : Q) (i j : nat) :
  (0 <= t)%Q ->
  (In (i, j) (correlated_pairs (np_abs (square n f)) t) <->
   i < j /\ j < n /\ (t < Qabs (f i j))%Q).
Proof.
  intros Ht. rewrite In_correlated_pairs_nonneg by exact Ht. simpl.
  split; [intros (H1 & H2 & H3 & H4)|intros (H1 & H2 & H3)]; repeat split;
    solve [assumption | lia].
Qed.

Lemma nonnegative_threshold_examines_upper_triangle_witness :
  (0 <= 3 # 4)%Q /\
  (In (0, 1) (correlated_pairs (np_abs corr3) (3 # 4)) <->
   0 < 1 /\ 1 < 3 /\ (3 # 4 < Qabs (item corr3 0 1))%Q).
Proof.
  split; [discriminate|].
  apply (nonnegative_threshold_examines_upper_triangle 3 (item corr3) (3 # 4) 0 1).
  discriminate.
Defined.

(** ** The variance filter *)

Section VarianceFilter.

Variable np_var_axis0 : ndarray2 Q -> nat -> float64.
Variable percentile_rank : nat -> (nat -> float64) -> nat -> float64.

(** C8.  In [k_best] mode the variance selector returns, in ascending
    order, exactly the indices of the columns whose variance, as numpy
    computes it, is a number that strictly exceeds the threshold; for the
    columns [1,1,1], [1,2,3], [5,5,5] and threshold 0, where numpy
    computes the variance 0 for the two constant columns and a positive
    variance for [1,2,3], it returns [[1]]. *)
Theorem variance_k_best (fsdf : ndarray2 Q) (t : Q) :
  (exists sel,
     outcome (multivariate_variance_selector np_var_axis0 percentile_rank
                fsdf "k_best" t) = inr sel /\
     (forall j, In j sel <->
                j < shape1 fsdf /\
                exists v, np_var_axis0 fsdf j = Num v /\ (t < v)%Q) /\
     StronglySorted lt sel) /\
  (forall v0 v1 v2 : Q,
     np_var_axis0 features_variance_example 0 = Num v0 -> (v0 == 0)%Q ->
     np_var_axis0 features_variance_example 1 = Num v1 -> (0 < v1)%Q ->
     np_var_axis0 features_variance_example 2 = Num v2 -> (v2 == 0)%Q ->
     outcome (multivariate_variance_selector np_var_axis0 percentile_rank
                features_variance_example "k_best" 0) = inr [1]).
Proof.
  split.
  - eexists. split; [reflexivity|]. split.
    + intros j. unfold np_where_greater1. rewrite filter_In, in_seq.
      rewrite float_gtb_true. split; [intros [[_ H] H']|intros [H H']];
        (split; [|exact H']); lia.
    + apply StronglySorted_filter, StronglySorted_seq.
  - intros v0 v1 v2 E0 H0 E1 H1 E2 H2.
    unfold outcome, multivariate_variance_selector. simpl.
    unfold np_where_greater1. simpl. rewrite E0, E1, E2. simpl.
    replace (Qgtb v0 0) with false
      by (symmetry; apply Qgtb_le; rewrite H0; apply Qle_refl).
    replace (Qgtb v1 0) with true by (symmetry; now apply Qgtb_lt).
    replace (Qgtb v2 0) with false
      by (symmetry; apply Qgtb_le; rewrite H2; apply Qle_refl).
    reflexivity.
Qed.

End VarianceFilter.

Lemma variance_k_best_witness :
  outcome (multivariate_variance_selector exact_var_axis0 percentile_rank_unused
             features_variance_example "k_best" 0) = inr [1].
Proof.
  refine (proj2 (variance_k_best exact_var_axis0 percentile_rank_unused
                   features_variance_example 0)
            _ _ _ eq_refl _ eq_refl _ eq_refl _); reflexivity.
Defined.

(** * Part IV: further properties of the code *)

(** ** Strict mode keeps a feature *)

(** Among the first [n] values of [cm], [n >= 1], there is a least one of
    lowest index. *)
Lemma lowest_minimum (cm : nat -> Q) (n : nat) :
  1 <= n ->
  exists k, k < n /\
    (forall i, i < n -> (cm k <= cm i)%Q) /\
    (forall i, i < k -> (cm k < cm i)%Q).
Proof.
  induction n as [|n IH]; [lia|]. intros _.
  destruct n as [|n].
  - exists 0. split; [lia|]. split.
    + intros i Hi. replace i with 0 by lia. apply Qle_refl.
    + intros i Hi. lia.
  - destruct IH as (k & Hk & Hmin & Hlow); [lia|].
    destruct (Qlt_le_dec (cm (S n)) (cm k)) as [Hlt|Hle].
    + exists (S n). split; [lia|]. split.
      * intros i Hi. destruct (Nat.eq_dec i (S n)) as [->|Hne]; [apply Qle_refl|].
        apply Qlt_le_weak. apply Qlt_le_trans with (cm k); [exact Hlt|].
        apply Hmin. lia.
      * intros i Hi. apply Qlt_le_trans with (cm k); [exact Hlt|].
        apply Hmin. lia.
    + exists k. split; [lia|]. split.
      * intros i Hi. destruct (Nat.eq_dec i (S n)) as [->|Hne]; [exact Hle|].
        apply Hmin. lia.
      * exact Hlow.
Qed.

(** With a non-negative threshold the strict loop never marks the
    lowest-index feature of least mean. *)
Lemma strict_keeps_lowest_minimum (np_mean_axis1 : ndarray2 Q -> nat -> Q)
    (n : nat) (f : nat -> nat -> Q) (t : Q) (k : nat) :
  (0 <= t)%Q ->
  (forall i, i < n ->
     (np_mean_axis1 (np_abs (square n f)) k <= np_mean_axis1 (np_abs (square n f)) i)%Q) ->
  (forall i, i < k ->
     (np_mean_axis1 (np_abs (square n f)) k < np_mean_axis1 (np_abs (square n f)) i)%Q) ->
  k ∉ strict_index_to_remove np_mean_axis1 (np_abs (square n f)) t.
Proof.
  intros Ht Hmin Hlow Hin.
  apply elem_of_strict_loop in Hin. destruct Hin as ([i j] & Hp & Hk).
  apply In_correlated_pairs_nonneg in Hp; [|exact Ht].
  simpl in Hp. destruct Hp as (Hij & Hi & Hj & _).
  unfold strict_pick in Hk. simpl in Hk.
  destruct (Qgtb (np_mean_axis1 (np_abs (square n f)) i)
                 (np_mean_axis1 (np_abs (square n f)) j)) eqn:E.
  - subst k. apply Qgtb_lt in E. exact (Qlt_not_le _ _ E (Hmin j Hj)).
  - subst k. apply Qgtb_le in E. exact (Qlt_not_le _ _ (Hlow i Hij) E).
Qed.

Section MoreStrict.

Variable np_corrcoef : ndarray2 Q -> corr_result.
Variable spearmanr : ndarray2 Q -> corr_result.
Variable np_mean_axis1 : ndarray2 Q -> nat -> Q.

#[local] Abbreviation selector := (multivariate_correlation_selector np_corrcoef spearmanr np_mean_axis1).
#[local] Abbreviation correlation := (correlation_of np_corrcoef spearmanr).


(** X4.  Strict mode with a non-negative threshold removes a feature only
    if it belongs to a pair above the threshold: a feature whose
    absolute correlation with every other feature is at most the
    threshold is returned, and every index marked for removal is the
    index of a feature. *)
Theorem strict_removes_only_correlated
    (fsdf : ndarray2 Q) (t : Q) (corr_method : string) (f : nat -> nat -> Q) :
  correlation corr_method fsdf = Some (Corr2d (square (shape1 fsdf) f)) ->
  (0 <= t)%Q ->
  (forall k, k ∈ strict_index_to_remove np_mean_axis1 (np_abs (square (shape1 fsdf) f)) t ->
     exists i j, i < j /\ j < shape1 fsdf /\ (k = i \/ k = j) /\
                 (t < Qabs (f i j))%Q) /\
  exists sel,
    outcome (selector fsdf "strict" t corr_method) = inr sel /\
    forall k, k < shape1 fsdf ->
      (forall i j, i < j -> j < shape1 fsdf -> k = i \/ k = j ->
                   (Qabs (f i j) <= t)%Q) ->
      In k sel.
Proof.
  intros Hc Ht.
  assert (Hrem : forall k,
            k ∈ strict_index_to_remove np_mean_axis1 (np_abs (square (shape1 fsdf) f)) t ->
            exists i j, i < j /\ j < shape1 fsdf /\ (k = i \/ k = j) /\
                        (t < Qabs (f i j))%Q).
  { intros k Hin. apply elem_of_strict_loop in Hin.
    destruct Hin as ([i j] & Hp & Hk).
    apply In_correlated_pairs_nonneg in Hp; [|exact Ht].
    simpl in Hp. destruct Hp as (Hij & Hi & Hj & Habove).
    exists i, j. repeat split; [exact Hij|exact Hj| |exact Habove].
    destruct (strict_pick_endpoint
                (np_mean_axis1 (np_abs (square (shape1 fsdf) f))) (i, j)) as [E|E];
      simpl in E; rewrite E in Hk; auto. }
  split; [exact Hrem|].
  eexists. split; [rewrite (run_strict _ _ _ _ _ _ _ Hc); reflexivity|].
  intros k Hk Hno. apply In_selected_features. split; [apply in_seq; lia|].
  intros Hin. destruct (Hrem k Hin) as (i & j & Hij & Hj & Hor & Habove).
  exact (Qlt_not_le _ _ Habove (Hno i j Hij Hj Hor)).
Qed.

(** X5.  Strict mode with a negative threshold removes every feature:
    each diagonal pair [(k, k)] is examined and marks [k]. *)
Theorem strict_negative_threshold_removes_all
    (fsdf : ndarray2 Q) (t : Q) (corr_method : string) (f : nat -> nat -> Q) :
  correlation corr_method fsdf = Some (Corr2d (square (shape1 fsdf) f)) ->
  (t < 0)%Q ->
  outcome (selector fsdf "strict" t corr_method) = inr [].
Proof.
  intros Hc Ht. rewrite (run_strict _ _ _ _ _ _ _ Hc). unfold outcome. simpl.
  f_equal.
  destruct (selected_features (seq 0 (shape1 fsdf))
              (strict_index_to_remove np_mean_axis1 (np_abs (square (shape1 fsdf) f)) t))
    as [|k l] eqn:E; [reflexivity|exfalso].
  assert (Hk : In k (selected_features (seq 0 (shape1 fsdf))
              (strict_index_to_remove np_mean_axis1 (np_abs (square (shape1 fsdf) f)) t)))
    by (rewrite E; now left).
  apply In_selected_features in Hk. destruct Hk as [Hk Hnot].
  apply in_seq in Hk. apply Hnot. apply elem_of_strict_loop.
  exists (k, k). split.
  - apply In_correlated_pairs_lower; [lia|]. simpl. repeat split; [lia|lia|exact Ht].
  - destruct (strict_pick_endpoint
                (np_mean_axis1 (np_abs (square (shape1 fsdf) f))) (k, k)) as [E'|E'];
      simpl in E'; now rewrite E'.
Qed.

End MoreStrict.


Lemma strict_removes_only_correlated_witness :
  (0 <= 3 # 4)%Q /\
  exists sel,
    outcome (multivariate_correlation_selector
               (library_returning (Corr2d corr3)) (library_returning (Corr2d corr3))
               exact_mean_axis1
               features3 "strict" (3 # 4) "pearson") = inr sel /\
    In 2 sel.
Proof.
  split; [discriminate|].
  destruct (strict_removes_only_correlated
              (library_returning (Corr2d corr3)) (library_returning (Corr2d corr3))
              exact_mean_axis1
              features3 (3 # 4) "pearson" (item corr3) eq_refl)
    as (_ & sel & Hrun & Hkept); [discriminate|].
  exists sel. split; [exact Hrun|]. apply Hkept; [simpl; lia|].
  intros i j Hij Hj Hor. change (shape1 features3) with 3 in Hj.
  assert (Hcases : i = 0 /\ j = 2 \/ i = 1 /\ j = 2) by lia.
  destruct Hcases as [[-> ->]|[-> ->]]; discriminate.
Defined.

Lemma strict_negative_threshold_removes_all_witness :
  (-1 # 2 < 0)%Q /\
  outcome (multivariate_correlation_selector
             (library_returning (Corr2d corr3)) (library_returning (Corr2d corr3))
             exact_mean_axis1
             features3 "strict" (-1 # 2) "pearson") = inr [].
Proof.
  split; [reflexivity|].
  apply (strict_negative_threshold_removes_all
           (library_returning (Corr2d corr3)) (library_returning (Corr2d corr3))
           exact_mean_axis1
           features3 (-1 # 2) "pearson" (item corr3)); reflexivity.
Defined.


(** ** Only the absolute values of the correlations matter *)

Lemma Qgtb_Qeq (x x' y y' : Q) :
  (x == x')%Q -> (y == y')%Q -> Qgtb x y = Qgtb x' y'.
Proof.
  intros Hx Hy. destruct (Qgtb x' y') eqn:E.
  - apply Qgtb_lt. apply Qgtb_lt in E. now rewrite Hx, Hy.
  - apply Qgtb_le. apply Qgtb_le in E. now rewrite Hx, Hy.
Qed.

Lemma Qsum_map_Qeq {A : Type} (g h : A -> Q) (l : list A) :
  (forall x, In x l -> (g x == h x)%Q) ->
  (Qsum (map g l) == Qsum (map h l))%Q.
Proof.
  induction l as [|a l IH]; intros H; simpl; [reflexivity|].
  rewrite (H a) by now left. rewrite IH; [reflexivity|].
  intros x Hx. apply H. now right.
Qed.

Lemma true_positions_ext (b b' : ndarray2 bool) :
  shape0 b = shape0 b' -> shape1 b = shape1 b' ->
  (forall i j, item b i j = item b' i j) ->
  true_positions b = true_positions b'.
Proof.
  intros H0 H1 Hitem. unfold true_positions. rewrite H0, H1.
  apply flat_map_ext. intros i. f_equal. apply List.filter_ext. intros j. apply Hitem.
Qed.

(** Two matrices of the same dimension whose entries agree in absolute
    value have the same correlated pairs. *)
Lemma correlated_pairs_abs (n : nat) (f g : nat -> nat -> Q) (t : Q) :
  (forall i j, (Qabs (f i j) == Qabs (g i j))%Q) ->
  correlated_pairs (np_abs (square n f)) t = correlated_pairs (np_abs (square n g)) t.
Proof.
  intros H. unfold correlated_pairs. rewrite !column_stack_where.
  apply true_positions_ext; [reflexivity|reflexivity|].
  intros i j. simpl. destruct (j <? i + 1); [reflexivity|].
  apply Qgtb_Qeq; [apply H|reflexivity].
Qed.

(** The exact mean is computed from the numbers the array holds. *)
Lemma exact_mean_of_values : mean_of_values exact_mean_axis1.
Proof.
  intros a b _ H1 H i. unfold exact_mean_axis1. rewrite H1.
  rewrite (Qsum_map_Qeq (item a i) (item b i)).
  - reflexivity.
  - intros j _. apply H.
Qed.

(** The strict loop reads the means only through comparisons. *)
Lemma strict_loop_Qeq (cm cm' : nat -> Q) (pairs : list (nat * nat)) :
  (forall i, (cm i == cm' i)%Q) ->
  strict_loop cm pairs = strict_loop cm' pairs.
Proof.
  intros H. unfold strict_loop. generalize (∅ : gset nat).
  induction pairs as [|p pairs IH]; intros s; simpl; [reflexivity|].
  rewrite IH. f_equal. unfold strict_step.
  now rewrite (Qgtb_Qeq _ (cm' (fst p)) _ (cm' (snd p)) (H _) (H _)).
Qed.

(** X6.  The selector reads the correlations only through their absolute
    values: on two data sets with the same number of features whose
    correlation matrices agree entry by entry in absolute value (signs
    may differ), it makes the same library calls and returns the same
    list, or raises the same error, whatever the options.  The means
    numpy computes depend on the numbers in the array only. *)
Theorem selector_ignores_signs
    (np_corrcoef spearmanr np_corrcoef' spearmanr' : ndarray2 Q -> corr_result)
    (np_mean_axis1 : ndarray2 Q -> nat -> Q)
    (fsdf fsdf' : ndarray2 Q) (selection_mode : string) (t : Q)
    (corr_method : string) (f g : nat -> nat -> Q) :
  mean_of_values np_mean_axis1 ->
  shape1 fsdf = shape1 fsdf' ->
  correlation_of np_corrcoef spearmanr corr_method fsdf =
    Some (Corr2d (square (shape1 fsdf) f)) ->
  correlation_of np_corrcoef' spearmanr' corr_method fsdf' =
    Some (Corr2d (square (shape1 fsdf) g)) ->
  (forall i j, (Qabs (f i j) == Qabs (g i j))%Q) ->
  multivariate_correlation_selector np_corrcoef spearmanr np_mean_axis1
    fsdf selection_mode t corr_method =
  multivariate_correlation_selector np_corrcoef' spearmanr' np_mean_axis1
    fsdf' selection_mode t corr_method.
Proof.
  intros Hmean Hn Hc Hc' Habs.
  destruct (supported_mode_dec selection_mode) as [[-> | ->]|Hs].
  - rewrite (run_strict _ _ _ _ _ _ _ Hc), (run_strict _ _ _ _ _ _ _ Hc'), <- Hn.
    unfold strict_index_to_remove.
    rewrite (correlated_pairs_abs _ f g t Habs).
    rewrite (strict_loop_Qeq _ (np_mean_axis1 (np_abs (square (shape1 fsdf) g))));
      [reflexivity|].
    intros i. apply Hmean; [reflexivity|reflexivity|].
    intros i' j'. apply Habs.
  - rewrite (run_approximate _ _ _ _ _ _ _ Hc), (run_approximate _ _ _ _ _ _ _ Hc'), <- Hn.
    unfold approximate_index_to_remove.
    now rewrite (correlated_pairs_abs _ f g t Habs).
  - rewrite (run_unsupported_mode _ _ _ _ _ _ _ _ Hc Hs),
            (run_unsupported_mode _ _ _ _ _ _ _ _ Hc' Hs).
    reflexivity.
Qed.

Lemma selector_ignores_signs_witness :
  multivariate_correlation_selector
    (library_returning (Corr2d corr3)) (library_returning (Corr2d corr3))
    exact_mean_axis1
    features3 "strict" (3 # 4) "pearson" =
  multivariate_correlation_selector
    (library_returning (Corr2d corr3_flipped)) (library_returning (Corr2d corr3_flipped))
    exact_mean_axis1
    features3 "strict" (3 # 4) "pearson".
Proof.
  apply (selector_ignores_signs
           (library_returning (Corr2d corr3)) (library_returning (Corr2d corr3))
           (library_returning (Corr2d corr3_flipped))
           (library_returning (Corr2d corr3_flipped))
           exact_mean_axis1
           features3 features3 "strict" (3 # 4) "pearson"
           (item corr3) (item corr3_flipped));
    [exact exact_mean_of_values|reflexivity|reflexivity|reflexivity|].
  intros i j.
  destruct i as [|[|[|i]]]; destruct j as [|[|[|j]]]; try reflexivity;
    unfold corr3, corr3_flipped, square, table; simpl;
    repeat (destruct i; simpl; try reflexivity);
    repeat (destruct j; simpl; try reflexivity).
Defined.

(** ** The variance-based selector, beyond the example *)

Section MoreVariance.

Variable np_var_axis0 : ndarray2 Q -> nat -> float64.
Variable percentile_rank : nat -> (nat -> float64) -> nat -> float64.

#[local] Abbreviation variance_selector := (multivariate_variance_selector np_var_axis0 percentile_rank).

(** X10.  In [k_best] mode raising the threshold never adds a feature:
    every index returned at [t2] is returned at any [t1 <= t2]. *)
Theorem variance_threshold_monotone (fsdf : ndarray2 Q) (t1 t2 : Q) :
  (t1 <= t2)%Q ->
  exists sel1 sel2,
    outcome (variance_selector fsdf "k_best" t1) = inr sel1 /\
    outcome (variance_selector fsdf "k_best" t2) = inr sel2 /\
    forall j, In j sel2 -> In j sel1.
Proof.
  intros Ht. eexists. eexists. split; [reflexivity|]. split; [reflexivity|].
  intros j. unfold np_where_greater1. rewrite !filter_In, !float_gtb_true.
  intros [Hj (v & Hv & Hgt)]. split; [exact Hj|]. exists v.
  split; [exact Hv|]. exact (Qle_lt_trans _ _ _ Ht Hgt).
Qed.

(** X11.  The variance selector raises exactly when the mode is neither
    [k_best] nor [percentile], and it does so only after the variances
    and their mean have been computed; when it returns, the list is in
    strictly ascending order and holds only feature indices. *)
Theorem variance_selector_outcomes
    (fsdf : ndarray2 Q) (selection_mode : string) (t : Q) :
  ((exists e, outcome (variance_selector fsdf selection_mode t) = inl e) <->
   ~ supported_variance_mode selection_mode) /\
  (~ supported_variance_mode selection_mode ->
   variance_selector fsdf selection_mode t =
   ([NpVar; NpMean; NpMean],
    inl (ValueError (unsupported_variance_mode selection_mode)))) /\
  (forall sel, outcome (variance_selector fsdf selection_mode t) = inr sel ->
     StronglySorted lt sel /\ forall j, In j sel -> j < shape1 fsdf).
Proof.
  unfold supported_variance_mode, multivariate_variance_selector.
  destruct (String.eqb_spec selection_mode "k_best") as [->|Hk].
  - split; [|split].
    + split; [intros (e & He); discriminate|intros H; exfalso; apply H; now left].
    + intros H. exfalso. apply H. now left.
    + intros sel [= <-]. split.
      * apply StronglySorted_filter, StronglySorted_seq.
      * intros j Hj. apply filter_In in Hj. destruct Hj as [Hj _].
        apply in_seq in Hj. lia.
  - destruct (String.eqb_spec selection_mode "percentile") as [->|Hp].
    + split; [|split].
      * split; [intros (e & He); discriminate|intros H; exfalso; apply H; now right].
      * intros H. exfalso. apply H. now right.
      * intros sel [= <-]. split.
        -- apply StronglySorted_filter, StronglySorted_seq.
        -- intros j Hj. apply filter_In in Hj. destruct Hj as [Hj _].
           apply in_seq in Hj. lia.
    + split; [|split].
      * split; [intros _; tauto|intros _; eexists; reflexivity].
      * intros _. reflexivity.
      * intros sel Hsel. discriminate.
Qed.

End MoreVariance.

Lemma variance_threshold_monotone_witness :
  (0 <= 1 # 2)%Q /\
  exists sel1 sel2,
    outcome (multivariate_variance_selector exact_var_axis0 percentile_rank_unused
               features3 "k_best" 0) = inr sel1 /\
    outcome (multivariate_variance_selector exact_var_axis0 percentile_rank_unused
               features3 "k_best" (1 # 2)) = inr sel2 /\
    forall j, In j sel2 -> In j sel1.
Proof.
  split; [discriminate|].
  apply (variance_threshold_monotone exact_var_axis0 percentile_rank_unused
           features3 0 (1 # 2)).
  discriminate.
Defined.

(** ** The dispatcher *)

(** A run followed by a step that cannot fail: same calls, same error,
    and the step applied to the value. *)
Lemma bind_mret {A B : Type} (r : Run A) (g : A -> B) :
  (x ← r; mret (g x)) =
  (calls r, match outcome r with inl e => inl e | inr v => inr (g v) end).
Proof.
  destruct r as [c [e|v]]; unfold mbind, run_bind, mret, run_ret, calls, outcome; simpl.
  - reflexivity.
  - now rewrite app_nil_r.
Qed.

Section DispatcherProperties.

Variable FSDataFrame : Type.
Variable get_feature_matrix : FSDataFrame -> ndarray2 Q.
Variable select_features_by_index : FSDataFrame -> list nat -> FSDataFrame.
Variable np_corrcoef : ndarray2 Q -> corr_result.
Variable spearmanr : ndarray2 Q -> corr_result.
Variable np_mean_axis1 : ndarray2 Q -> nat -> Q.
Variable np_var_axis0 : ndarray2 Q -> nat -> float64.
Variable percentile_rank : nat -> (nat -> float64) -> nat -> float64.
Variable methods_text : string.

#[local] Abbreviation filter_run :=
  (multivariate_filter FSDataFrame get_feature_matrix select_features_by_index
     np_corrcoef spearmanr np_mean_axis1 np_var_axis0 percentile_rank methods_text).

(** X13.  [multivariate_filter] rejects its arguments before any library
    call and without projecting the data in two cases: a method name
    other than [m_corr] and [variance] raises [ValueError]; the method
    [variance] together with a [corr_method] keyword argument raises
    [TypeError], the variance selector having no such parameter. *)
Theorem filter_rejects_before_computing
    (fsdf : FSDataFrame) (multivariate_method : string) (kw : kwargs) :
  (multivariate_method <> "m_corr"%string /\ multivariate_method <> "variance"%string) \/
  (multivariate_method = "variance"%string /\ kw_corr_method kw <> None) ->
  filter_run fsdf multivariate_method kw =
  ([], inl (if String.eqb multivariate_method "variance"
            then TypeError
              "multivariate_variance_selector() got an unexpected keyword argument 'corr_method'"
            else ValueError (invalid_method multivariate_method methods_text))).
Proof.
  unfold multivariate_filter. intros [[Hc Hv]|[-> Hk]].
  - apply String.eqb_neq in Hc. apply String.eqb_neq in Hv. rewrite Hc, Hv.
    reflexivity.
  - simpl. unfold call_variance_selector.
    destruct (kw_corr_method kw); [reflexivity|contradiction].
Qed.

(** X14.  With the method [m_corr] and no keyword argument the filter runs
    the correlation selector in strict mode with threshold 0.75 on
    Pearson correlations; on data with at least one feature it returns
    the projection of the data on a non-empty, strictly ascending list
    of feature indices. *)
Theorem filter_default_correlation_keeps_a_feature
    (fsdf : FSDataFrame) (f : nat -> nat -> Q) :
  np_corrcoef (get_feature_matrix fsdf) =
    Corr2d (square (shape1 (get_feature_matrix fsdf)) f) ->
  1 <= shape1 (get_feature_matrix fsdf) ->
  exists sel,
    outcome (filter_run fsdf "m_corr" no_kwargs) =
      inr (select_features_by_index fsdf sel) /\
    outcome (multivariate_correlation_selector np_corrcoef spearmanr np_mean_axis1
               (get_feature_matrix fsdf) "strict" (3 # 4) "pearson") = inr sel /\
    sel <> [] /\
    StronglySorted lt sel /\
    forall i, In i sel -> i < shape1 (get_feature_matrix fsdf).
Proof.
  intros Hcorr Hn.
  set (fm := get_feature_matrix fsdf) in *.
  assert (Hc : correlation_of np_corrcoef spearmanr "pearson" fm =
               Some (Corr2d (square (shape1 fm) f)))
    by (unfold correlation_of; simpl; now rewrite Hcorr).
  pose proof (run_strict np_corrcoef spearmanr np_mean_axis1 fm (3 # 4) "pearson" _ Hc)
    as Hrun.
  exists (selected_features (seq 0 (shape1 fm))
            (strict_index_to_remove np_mean_axis1 (np_abs (square (shape1 fm) f)) (3 # 4))).
  split; [|split; [|split; [|split]]].
  - unfold multivariate_filter. rewrite String.eqb_refl.
    unfold call_correlation_selector, no_kwargs.
    cbn [kw_selection_mode kw_selection_threshold kw_corr_method or_default].
    fold fm. rewrite bind_mret, Hrun. reflexivity.
  - rewrite Hrun. reflexivity.
  - destruct (lowest_minimum (np_mean_axis1 (np_abs (square (shape1 fm) f)))
                (shape1 fm) Hn) as (k & Hk & Hmin & Hlow).
    assert (Hin : In k (selected_features (seq 0 (shape1 fm))
               (strict_index_to_remove np_mean_axis1 (np_abs (square (shape1 fm) f)) (3 # 4)))).
    { apply In_selected_features. split; [apply in_seq; lia|].
      apply strict_keeps_lowest_minimum; [discriminate|exact Hmin|exact Hlow]. }
    intros E. rewrite E in Hin. destruct Hin.
  - apply StronglySorted_filter, StronglySorted_seq.
  - intros i Hi. apply In_selected_features in Hi. destruct Hi as [Hi _].
    apply in_seq in Hi. lia.
Qed.

End DispatcherProperties.

Lemma filter_rejects_before_computing_witness :
  multivariate_filter (ndarray2 Q) (fun d => d) (fun d _ => d)
    (library_returning (Corr2d corr3)) (library_returning (Corr2d corr3))
    exact_mean_axis1
    exact_var_axis0 percentile_rank_unused "['m_corr', 'variance']" features3 "variance"
    (mk_kwargs None None (Some "pearson"%string)) =
  ([], inl (TypeError
     "multivariate_variance_selector() got an unexpected keyword argument 'corr_method'")).
Proof.
  apply (filter_rejects_before_computing (ndarray2 Q) (fun d => d) (fun d _ => d)
           (library_returning (Corr2d corr3)) (library_returning (Corr2d corr3))
           exact_mean_axis1
           exact_var_axis0 percentile_rank_unused "['m_corr', 'variance']" features3 "variance"
           (mk_kwargs None None (Some "pearson"%string))).
  right. split; [reflexivity|discriminate].
Defined.

Lemma filter_default_correlation_keeps_a_feature_witness :
  exists sel,
    outcome (multivariate_correlation_selector
               (library_returning (Corr2d corr3)) (library_returning (Corr2d corr3))
               exact_mean_axis1
               features3 "strict" (3 # 4) "pearson") = inr sel /\
    sel <> [].
Proof.
  destruct (filter_default_correlation_keeps_a_feature (ndarray2 Q) (fun d => d)
              (fun d _ => d)
              (library_returning (Corr2d corr3)) (library_returning (Corr2d corr3))
              exact_mean_axis1
              exact_var_axis0 percentile_rank_unused "['m_corr', 'variance']" features3 (item corr3)
              eq_refl) as (sel & _ & Hrun & Hne & _).
  - simpl. lia.
  - exists sel. split; [exact Hrun|exact Hne].
Defined.

(** ** Selecting again from the selected features *)

Lemma StronglySorted_nth_lt (l : list nat) (a b : nat) :
  StronglySorted lt l -> a < b -> b < length l -> nth a l 0 < nth b l 0.
Proof.
  intros Hs. revert a b. induction Hs as [|x l Hs IH Hall]; intros a b Hab Hb.
  - simpl in Hb. lia.
  - destruct b as [|b]; [lia|]. simpl in Hb.
    destruct a as [|a].
    + simpl. rewrite List.Forall_forall in Hall. apply Hall. apply nth_In. lia.
    + simpl. apply IH; lia.
Qed.

Section Stability.

Variable np_corrcoef : ndarray2 Q -> corr_result.
Variable spearmanr : ndarray2 Q -> corr_result.
Variable np_mean_axis1 : ndarray2 Q -> nat -> Q.

#[local] Abbreviation selector := (multivariate_correlation_selector np_corrcoef spearmanr np_mean_axis1).
#[local] Abbreviation correlation := (correlation_of np_corrcoef spearmanr).

(** X7.  Strict selection is stable.  Let [sel] be the list returned in
    strict mode on data with correlation matrix [f], and let [fsdf'] be
    the data restricted to the features of [sel], its correlation matrix
    being the corresponding sub-matrix of [f].  Then the selector, in
    either mode and with the same threshold, removes nothing from
    [fsdf']: no two features kept by strict mode are correlated above
    the threshold.  ([sel] has not exactly one element: the library
    returns no matrix for a single feature.) *)
Theorem strict_selection_is_stable
    (fsdf fsdf' : ndarray2 Q) (selection_mode : string) (t : Q)
    (corr_method : string) (f : nat -> nat -> Q) (sel : list nat) :
  correlation corr_method fsdf = Some (Corr2d (square (shape1 fsdf) f)) ->
  outcome (selector fsdf "strict" t corr_method) = inr sel ->
  shape1 fsdf' = length sel ->
  length sel <> 1 ->
  correlation corr_method fsdf' =
    Some (Corr2d (square (length sel) (sub_matrix f sel))) ->
  supported_mode selection_mode ->
  outcome (selector fsdf' selection_mode t corr_method) = inr (seq 0 (length sel)).
Proof.
  intros Hc Hrun Hn' Hne Hc' Hmode.
  rewrite (run_strict _ _ _ _ _ _ _ Hc) in Hrun. injection Hrun as Hsel.
  assert (Hsorted : StronglySorted lt sel)
    by (rewrite <- Hsel; apply StronglySorted_filter, StronglySorted_seq).
  assert (Hno : forall a b, a < b -> b < length sel ->
                  (Qabs (sub_matrix f sel a b) <= t)%Q).
  { intros a b Hab Hb.
    pose proof (StronglySorted_nth_lt sel a b Hsorted Hab Hb) as Hij.
    assert (Hi : In (nth a sel 0) sel) by (apply nth_In; lia).
    assert (Hj : In (nth b sel 0) sel) by (apply nth_In; lia).
    assert (Hi' : In (nth a sel 0)
                     (selected_features (seq 0 (shape1 fsdf))
                        (strict_index_to_remove np_mean_axis1 (np_abs (square (shape1 fsdf) f)) t)))
      by (rewrite Hsel; exact Hi).
    assert (Hj' : In (nth b sel 0)
                     (selected_features (seq 0 (shape1 fsdf))
                        (strict_index_to_remove np_mean_axis1 (np_abs (square (shape1 fsdf) f)) t)))
      by (rewrite Hsel; exact Hj).
    clear Hi Hj.
    apply In_selected_features in Hi'. destruct Hi' as [Hi Hik].
    apply In_selected_features in Hj'. destruct Hj' as [Hj Hjk].
    apply in_seq in Hj.
    unfold sub_matrix.
    destruct (Qlt_le_dec t (Qabs (f (nth a sel 0) (nth b sel 0)))) as [Habove|Hle];
      [exfalso|exact Hle].
    assert (Hp : In (nth a sel 0, nth b sel 0)
                    (correlated_pairs (np_abs (square (shape1 fsdf) f)) t))
      by (apply above_threshold_examined; [exact Hij|lia|exact Habove]).
    assert (Hpick : strict_pick (np_mean_axis1 (np_abs (square (shape1 fsdf) f)))
                      (nth a sel 0, nth b sel 0)
                    ∈ strict_index_to_remove np_mean_axis1 (np_abs (square (shape1 fsdf) f)) t)
      by (apply elem_of_strict_loop; eauto).
    destruct (strict_pick_endpoint (np_mean_axis1 (np_abs (square (shape1 fsdf) f)))
                (nth a sel 0, nth b sel 0)) as [E|E];
      simpl in E; rewrite E in Hpick; contradiction. }
  pose proof (correlated_pairs_nil (length sel)
                (sub_matrix f sel) t Hne Hno) as Hnil.
  destruct Hmode as [-> | ->].
  - rewrite (run_strict _ _ _ _ _ _ _ Hc'). unfold outcome. simpl.
    unfold strict_index_to_remove. rewrite Hnil, Hn'.
    unfold strict_loop. simpl. now rewrite selected_features_empty.
  - rewrite (run_approximate _ _ _ _ _ _ _ Hc'). unfold outcome. simpl.
    unfold approximate_index_to_remove. rewrite Hnil, Hn'.
    change (find_maximal_independent_set [] false) with (∅ : gset nat).
    now rewrite selected_features_empty.
Qed.

End Stability.

Lemma strict_selection_is_stable_witness :
  outcome (multivariate_correlation_selector
             (library_returning (Corr2d corr3)) (library_returning (Corr2d corr3))
             exact_mean_axis1
             features3 "strict" (3 # 4) "pearson") = inr [0; 2] /\
  outcome (multivariate_correlation_selector
             (library_returning
                (Corr2d (square 2 (sub_matrix (item corr3) [0; 2]))))
             (library_returning
                (Corr2d (square 2 (sub_matrix (item corr3) [0; 2]))))
             exact_mean_axis1
             features2 "approximate" (3 # 4) "pearson") = inr [0; 1].
Proof.
  split; [vm_compute; reflexivity|].
  refine (strict_selection_is_stable
           (fun fm => match shape1 fm with
                      | 3 => Corr2d corr3
                      | _ => Corr2d (square 2 (sub_matrix (item corr3) [0; 2]))
                      end)
           (library_returning (Corr2d corr3))
           exact_mean_axis1
           features3 features2 "approximate" (3 # 4) "pearson" (item corr3) [0; 2]
           _ _ _ _ _ _);
    [reflexivity|vm_compute; reflexivity|reflexivity|simpl; lia|reflexivity
    |right; reflexivity].
Defined.
